(** * notionquiz: the review scheduler and the priority ranker

    A shallow embedding of [src/utils/spacedRepetition.(ts|js)] and
    [src/utils/priority.(ts|js)]:

    - [SpacedRepetition.calculateNextReview], the simplified SM-2 step, over
      IEEE 754 binary64 numbers (the JavaScript [number] type), with
      [Math.max], [Math.min] and [Math.round] as ECMAScript defines them;
    - [SpacedRepetition.getRatingQuality], a property lookup on an object
      literal followed by [?? 2];
    - [Priority.calculatePriority], the additive urgency score, with the two
      clock readings of the source as parameters.

    Definitions come first, then the facts about binary64 arithmetic the
    proofs need, then the properties of the three functions. *)

From Stdlib Require Import ZArith Bool List String Lia.
From Stdlib Require Import Floats.
From Stdlib Require Import Permutation Sorted.
Import ListNotations.

Set Warnings "-inexact-float".

(** ** JavaScript numbers *)

Module JsNumber.

Local Open Scope float_scope.

(** A JavaScript [number] is a binary64 value: Rocq's primitive [float]. *)
Definition number := float.

(** The integer [n] as a number, exact for [|n| <= 2^53]. *)
Definition of_Z (n : Z) : number :=
  match n with
  | Z0 => zero
  | Zpos _ => of_uint63 (Uint63Axioms.of_Z n)
  | Zneg p => - of_uint63 (Uint63Axioms.of_Z (Zpos p))
  end.

(** [Math.max(a, b)]: NaN when either argument is NaN; [+0] is larger
    than [-0]. *)
Definition Math_max (a b : number) : number :=
  if is_nan a || is_nan b then nan
  else if a <? b then b
  else if b <? a then a
  else if get_sign a then b else a.

(** [Math.min(a, b)]: NaN when either argument is NaN; [-0] is smaller
    than [+0]. *)
Definition Math_min (a b : number) : number :=
  if is_nan a || is_nan b then nan
  else if a <? b then a
  else if b <? a then b
  else if get_sign a then a else b.

(** [floor (x + 1/2)] for [x = (-1)^s * m * 2^e] with [e < 0], computed
    exactly on integers. *)
Definition round_half_up (s : bool) (m : positive) (e : Z) : Z :=
  ((2 * cond_Zopp s (Zpos m) + 2 ^ (- e)) / 2 ^ (1 - e))%Z.

(** [Math.round(x)]: the integer closest to [x], ties towards +Infinity;
    NaN, the infinities and the zeros are returned unchanged, and a result
    of zero keeps the sign of [x]. *)
Definition Math_round (x : number) : number :=
  match Prim2SF x with
  | S754_finite s m e =>
      if (0 <=? e)%Z then x
      else
        let n := round_half_up s m e in
        if (n =? 0)%Z then (if s then neg_zero else zero) else of_Z n
  | _ => x
  end.

End JsNumber.

(** ** Spaced repetition (simplified SM-2) *)

Module SpacedRepetition.

Import JsNumber.
Local Open Scope float_scope.

(** [SpacedRepetitionResult] of [shared/types]. *)
Record SpacedRepetitionResult : Set := {
  interval : number;
  easeFactor : number
}.

(** [calculateNextReview(quality, previousInterval, easeFactor)]. *)
Definition calculateNextReview
    (quality previousInterval easeFactor : number) : SpacedRepetitionResult :=
  if quality <? 3 then
    {| interval := 1;
       easeFactor := Math_max 1.3 (easeFactor - 0.2) |}
  else
    let newInterval :=
      if previousInterval =? 0 then 1
      else if previousInterval =? 1 then 3
      else Math_round (previousInterval * easeFactor) in
    let newEaseFactor :=
      easeFactor + (0.1 - (5 - quality) * (0.08 + (5 - quality) * 0.02)) in
    {| interval := Math_min newInterval 60;
       easeFactor := Math_max 1.3 newEaseFactor |}.

(** The call with its default parameters: an argument that is missing (or
    [undefined]) takes [previousInterval = 0], [easeFactor = 2.5]. *)
Definition calculateNextReview_args
    (quality : number) (previousInterval easeFactor : option number)
    : SpacedRepetitionResult :=
  calculateNextReview quality
    (match previousInterval with Some p => p | None => 0 end)
    (match easeFactor with Some e => e | None => 2.5 end).

(** How a call completes: normally, with a value, or abruptly, with an
    exception. *)
Inductive completion (A : Type) : Type :=
| Normal (result : A)
| Throw (message : string).

Arguments Normal {A} result.
Arguments Throw {A} message.

(** A call of [calculateNextReview]. The body has no [throw], and the
    comparisons, the arithmetic and the [Math] functions it applies to its
    numbers raise nothing: every call completes normally. *)
Definition call_calculateNextReview
    (quality previousInterval easeFactor : number)
    : completion SpacedRepetitionResult :=
  Normal (calculateNextReview quality previousInterval easeFactor).

(** *** The rating map

    [qualityMap] is an object literal, so [qualityMap[ratingKey]] is the
    ordinary property read: the object's own properties first, then its
    prototype chain, which for a literal is [Object.prototype]. *)

Inductive value : Set :=
| Undefined
| Null
| Num (x : number)
| Function (name : string)
| ObjectRef (name : string).

Inductive object : Set :=
| NullObject
| Object (own : list (string * value)) (proto : object).

Fixpoint own_property (props : list (string * value)) (key : string)
    : option value :=
  match props with
  | [] => None
  | (k, v) :: rest => if String.eqb k key then Some v else own_property rest key
  end.

(** [o[key]]: the value [key] has in the first object of the prototype
    chain that has it; [undefined] when the chain ends, at [null], without
    one. *)
Fixpoint Get (o : object) (key : string) : value :=
  match o with
  | NullObject => Undefined
  | Object own proto =>
      match own_property own key with
      | Some v => v
      | None => Get proto key
      end
  end.

(** The names [o[key]] finds a property for: those of [o] and of its
    prototype chain. *)
Fixpoint property_names (o : object) : list string :=
  match o with
  | NullObject => []
  | Object own proto => map fst own ++ property_names proto
  end.

(** [Object.prototype]: its standard methods, and the [__proto__] accessor,
    which read through an object literal yields [Object.prototype]. *)
Definition Object_prototype : object :=
  Object
    [ ("constructor", Function "Object");
      ("__defineGetter__", Function "__defineGetter__");
      ("__defineSetter__", Function "__defineSetter__");
      ("hasOwnProperty", Function "hasOwnProperty");
      ("__lookupGetter__", Function "__lookupGetter__");
      ("__lookupSetter__", Function "__lookupSetter__");
      ("isPrototypeOf", Function "isPrototypeOf");
      ("propertyIsEnumerable", Function "propertyIsEnumerable");
      ("toString", Function "toString");
      ("valueOf", Function "valueOf");
      ("__proto__", ObjectRef "Object.prototype");
      ("toLocaleString", Function "toLocaleString") ]%string
    NullObject.

(** [a ?? b]: [b] when [a] is [null] or [undefined], else [a]. *)
Definition nullish (a b : value) : value :=
  match a with
  | Undefined | Null => b
  | _ => a
  end.

Definition qualityMap : object :=
  Object
    [ ("forgot", Num 0);
      ("struggled", Num 2);
      ("good", Num 4);
      ("perfect", Num 5) ]%string
    Object_prototype.

(** [getRatingQuality(ratingKey)]. *)
Definition getRatingQuality (ratingKey : string) : value :=
  nullish (Get qualityMap ratingKey) (Num 2).

End SpacedRepetition.

(** ** Review priority *)

Module Priority.

Import JsNumber.
Local Open Scope Z_scope.

(** A date field holds a string. [new Date(s)] either parses it to a time
    value, an integral number of milliseconds since the epoch, or yields an
    invalid date, whose time value is NaN. *)
Inductive DateString : Set :=
| IsoDate (ms : Z)
| Unparsable.

(** [Paper] of [shared/types]; its optional fields play no part here. *)
Record Paper : Set := {
  id : string;
  title : string
}.

(** [PaperStats] of [shared/types]. An optional date is [None] when it is
    [undefined], [null] or the empty string, the values [!] and [&&] take
    for false; [masteryScore] is [None] when it is [undefined]. *)
Record PaperStats : Set := {
  lastReviewed : option DateString;
  masteryScore : option number;
  reviewCount : number;
  easeFactor : number;
  interval : number;
  dueDate : option DateString
}.

(** Every number [calculatePriority] adds up is an integer far below
    [2^53] or NaN, and binary64 arithmetic on such integers is exact: the
    score is an integer of [Z], or NaN. *)
Inductive score : Set :=
| NaN
| Points (n : Z).

Definition plus (a b : score) : score :=
  match a, b with
  | Points x, Points y => Points (x + y)
  | _, _ => NaN
  end.

Definition times (a b : score) : score :=
  match a, b with
  | Points x, Points y => Points (x * y)
  | _, _ => NaN
  end.

(** [Math.min] on scores: NaN when either argument is. *)
Definition Math_min (a b : score) : score :=
  match a, b with
  | Points x, Points y => Points (Z.min x y)
  | _, _ => NaN
  end.

(** [a >= 0]; false for NaN. *)
Definition is_nonnegative (a : score) : bool :=
  match a with
  | Points x => 0 <=? x
  | NaN => false
  end.

(** [new Date(s).getTime()]. *)
Definition getTime (s : DateString) : score :=
  match s with
  | IsoDate ms => Points ms
  | Unparsable => NaN
  end.

(** [Math.floor((now - new Date(s).getTime()) / (1000 * 60 * 60 * 24))].
    Time values are at most [8.64e15] in magnitude, so the difference is
    exact, and the floor of the binary64 quotient is the floor of the
    exact one. *)
Definition daysSince (now : Z) (s : DateString) : score :=
  match getTime s with
  | Points t => Points ((now - t) / (1000 * 60 * 60 * 24))
  | NaN => NaN
  end.

(** One day in milliseconds, the divisor above. *)
Definition day : Z := 1000 * 60 * 60 * 24.

(** [new Date(s) <= new Date()], a comparison of time values; false for an
    invalid date. *)
Definition date_le (s : DateString) (today : Z) : bool :=
  match getTime s with
  | Points t => t <=? today
  | NaN => false
  end.

(** [stats?.field]. *)
Definition opt_field {A : Set} (stats : option PaperStats)
    (field : PaperStats -> option A) : option A :=
  match stats with
  | Some s => field s
  | None => None
  end.

(** [stats?.masteryScore !== undefined && stats.masteryScore < 50]. *)
Definition lowMastery (stats : option PaperStats) : bool :=
  match opt_field stats masteryScore with
  | Some m => (m <? 50)%float
  | None => false
  end.

(** [stats?.dueDate && new Date(stats.dueDate) <= new Date()]. *)
Definition isDue (today : Z) (stats : option PaperStats) : bool :=
  match opt_field stats dueDate with
  | Some d => date_le d today
  | None => false
  end.

Section Clock.

(** The source reads the clock twice: [Date.now()] for the days since
    the last review, then [new Date()] for the due date. *)
Variable now : Z.
Variable today : Z.

(** [calculatePriority(_paper, stats)]. *)
Definition calculatePriority (_paper : Paper) (stats : option PaperStats)
    : score :=
  let priority := Points 0 in
  let priority :=
    match opt_field stats lastReviewed with
    | None => plus priority (Points 50)
    | Some d =>
        plus priority (Math_min (times (daysSince now d) (Points 2)) (Points 30))
    end in
  let priority :=
    if lowMastery stats then plus priority (Points 20) else priority in
  let priority :=
    if isDue today stats then plus priority (Points 25) else priority in
  priority.

End Clock.

End Priority.

(** ** The rest of [utils/priority]: the label and the ordering *)

Module PriorityUtils.

Import JsNumber Priority.
Local Open Scope Z_scope.

(** [a > b], [a >= b] and [a - b] on scores; a comparison with NaN is
    false, a difference with NaN is NaN. *)
Definition gtb (a b : score) : bool :=
  match a, b with
  | Points x, Points y => y <? x
  | _, _ => false
  end.

Definition geb (a b : score) : bool :=
  match a, b with
  | Points x, Points y => y <=? x
  | _, _ => false
  end.

Definition minus (a b : score) : score :=
  match a, b with
  | Points x, Points y => Points (x - y)
  | _, _ => NaN
  end.

(** [PriorityLabel] of [shared/types]. *)
Record PriorityLabel : Set := {
  label : string;
  className : string
}.

(** [getPriorityLabel(priority)], on the scores [calculatePriority]
    returns. *)
Definition getPriorityLabel (priority : score) : PriorityLabel :=
  if gtb priority (Points 60) then
    {| label := "Due"; className := "bg-red-100 text-red-700" |}
  else if gtb priority (Points 40) then
    {| label := "Soon"; className := "bg-amber-100 text-amber-700" |}
  else
    {| label := "OK"; className := "bg-green-100 text-green-700" |}.

(** [paperStats[id]], for a table of records keyed by paper id. *)
Fixpoint lookup (paperStats : list (string * PaperStats)) (key : string)
    : option PaperStats :=
  match paperStats with
  | [] => None
  | (k, v) :: rest => if String.eqb k key then Some v else lookup rest key
  end.

(** [Array.prototype.sort] is stable, and a compare function that answers
    a positive number puts its first argument after its second; NaN counts
    as 0. For a consistent compare function the outcome is the one stable
    sorted order, which inserting each element in turn, from the last to
    the first, produces. *)
Fixpoint insert_sorted {A : Type} (compare : A -> A -> score) (x : A)
    (sorted : list A) : list A :=
  match sorted with
  | [] => [x]
  | y :: rest =>
      if gtb (compare x y) (Points 0) then y :: insert_sorted compare x rest
      else x :: sorted
  end.

Definition sort {A : Type} (compare : A -> A -> score) (array : list A)
    : list A :=
  fold_right (insert_sorted compare) [] array.

Section Clock.

(** The clock readings of [calculatePriority], taken to stand still while
    the array is sorted. *)
Variable now : Z.
Variable today : Z.

(** [calculatePriority(a, paperStats[a.id])]. *)
Definition priorityOf (paperStats : list (string * PaperStats)) (a : Paper)
    : score :=
  calculatePriority now today a (lookup paperStats (id a)).

(** [sortByPriority(papers, paperStats)]: a sorted copy, highest priority
    first. *)
Definition sortByPriority (papers : list Paper)
    (paperStats : list (string * PaperStats)) : list Paper :=
  sort (fun a b =>
          let priorityA := priorityOf paperStats a in
          let priorityB := priorityOf paperStats b in
          minus priorityB priorityA)
       papers.

End Clock.

End PriorityUtils.

(** ** [components/PaperCard]: the status badge *)

Module PaperCard.

Import JsNumber Priority PriorityUtils.
Local Open Scope Z_scope.

Record StatusBadge : Set := {
  label : string;
  color : string
}.

(** [x || 0] for a number that may be [undefined]: 0 when [x] is
    [undefined], NaN or a zero. *)
Definition or_zero (x : option number) : number :=
  match x with
  | Some v => if is_nan v || (v =? 0)%float then 0%float else v
  | None => 0%float
  end.

(** [getStatusBadge(stats, priority)]. *)
Definition getStatusBadge (stats : option PaperStats) (priority : score)
    : StatusBadge :=
  let mastery := or_zero (opt_field stats masteryScore) in
  match opt_field stats lastReviewed with
  | None => {| label := "New"; color := "bg-indigo-100 text-indigo-700" |}
  | Some _ =>
      if gtb priority (Points 60) then
        {| label := "Due"; color := "bg-red-100 text-red-700" |}
      else if (mastery <? 50)%float then
        {| label := "Weak"; color := "bg-amber-100 text-amber-700" |}
      else if gtb priority (Points 40) then
        {| label := "Soon"; color := "bg-amber-100 text-amber-700" |}
      else
        {| label := "Good"; color := "bg-green-100 text-green-700" |}
  end.

End PaperCard.

(** ** [App]: the needs-review filter and the bookkeeping of a session *)

Module App.

Import JsNumber Priority PriorityUtils PaperCard.
Local Open Scope float_scope.

(** The needs-review filter of the paper list, for one paper:
    [isNew || mastery < 50 || priority >= 40]. *)
Definition needsReview (now today : Z) (paper : Paper)
    (stats : option PaperStats) : bool :=
  let isNew :=
    match opt_field stats lastReviewed with
    | None => true
    | Some _ => false
    end in
  let mastery := or_zero (opt_field stats masteryScore) in
  let priority := calculatePriority now today paper stats in
  isNew || (mastery <? 50) || geb priority (Points 40).

(** [saveSession]: the record used for a paper that has none,
    [stats[paperId] || { reviewCount: 0, masteryScore: 0, easeFactor: 2.5,
    interval: 0 }]. *)
Definition newStats : PaperStats :=
  {| lastReviewed := None; masteryScore := Some 0; reviewCount := 0;
     Priority.easeFactor := 2.5; Priority.interval := 0; dueDate := None |}.

Definition currentStats (stats : option PaperStats) : PaperStats :=
  match stats with
  | Some s => s
  | None => newStats
  end.

(** [Math.round((overallScore / 100) * 5)]: the overall score of a session,
    on the scale of 0 to 100, as an SM-2 quality. *)
Definition sessionQuality (overallScore : number) : number :=
  Math_round ((overallScore / 100) * 5).

(** [calculateNextReview(quality, currentStats.interval,
    currentStats.easeFactor)]. *)
Definition sessionReview (stats : option PaperStats) (overallScore : number)
    : SpacedRepetition.SpacedRepetitionResult :=
  let quality := sessionQuality overallScore in
  SpacedRepetition.calculateNextReview quality
    (Priority.interval (currentStats stats))
    (Priority.easeFactor (currentStats stats)).

(** [(currentStats.masteryScore * 0.7) + (overallScore * 0.3)]; a mastery
    score that is [undefined] makes the product NaN. *)
Definition newMasteryScore (stats : option PaperStats)
    (overallScore : number) : number :=
  let old :=
    match masteryScore (currentStats stats) with
    | Some m => m
    | None => nan
    end in
  (old * 0.7) + (overallScore * 0.3).

End App.

(** ** [App]: the state reducer *)

Module AppReducer.

Import Priority.
Local Open Scope Z_scope.

(** [AppScreen] of [shared/types]. *)
Inductive AppScreen : Set := home | loading | review | summary | history.

Section Reducer.

(** The payloads the reducer stores without looking inside. *)
Context {Flashcard Answer Session : Type}.

(** [AppState] of [shared/types]. [answers] may have holes: an element is
    [None] where the array has none, or [undefined]. *)
Record AppState : Type := {
  screen : AppScreen;
  papers : list Paper;
  paperStats : list (string * PaperStats);
  currentPaper : option Paper;
  flashcards : list Flashcard;
  currentCardIndex : Z;
  answers : list (option Answer);
  sessionHistory : list Session;
  isLoading : bool;
  loadingMessage : string;
  error : option string;
  isAnswered : bool;
  isEvaluating : bool
}.

(** [AppAction] of [shared/types], and any other action, which the
    [default] branch takes. *)
Inductive AppAction : Type :=
| SET_LOADING (loading : bool) (message : option string)
| SET_ERROR (payload : string)
| SET_EVALUATING (payload : bool)
| SET_PAPERS (payload : list Paper)
| SET_PAPER_STATS (payload : list (string * PaperStats))
| SET_SESSION_HISTORY (payload : list Session)
| SELECT_PAPER (payload : Paper)
| SET_FLASHCARDS (payload : list Flashcard)
| MARK_ANSWERED
| SAVE_ANSWER (payload : Answer)
| NEXT_CARD
| PREV_CARD
| SET_SCREEN (payload : AppScreen)
| RESET_SESSION
| OTHER_ACTION (type : string).

(** [{ ...s, field: v }], one definition a field. *)
Definition set_screen (v : AppScreen) (s : AppState) : AppState :=
  {| screen := v;
     papers := papers s;
     paperStats := paperStats s;
     currentPaper := currentPaper s;
     flashcards := flashcards s;
     currentCardIndex := currentCardIndex s;
     answers := answers s;
     sessionHistory := sessionHistory s;
     isLoading := isLoading s;
     loadingMessage := loadingMessage s;
     error := error s;
     isAnswered := isAnswered s;
     isEvaluating := isEvaluating s |}.

Definition set_papers (v : list Paper) (s : AppState) : AppState :=
  {| screen := screen s;
     papers := v;
     paperStats := paperStats s;
     currentPaper := currentPaper s;
     flashcards := flashcards s;
     currentCardIndex := currentCardIndex s;
     answers := answers s;
     sessionHistory := sessionHistory s;
     isLoading := isLoading s;
     loadingMessage := loadingMessage s;
     error := error s;
     isAnswered := isAnswered s;
     isEvaluating := isEvaluating s |}.

Definition set_paperStats (v : list (string * PaperStats)) (s : AppState) : AppState :=
  {| screen := screen s;
     papers := papers s;
     paperStats := v;
     currentPaper := currentPaper s;
     flashcards := flashcards s;
     currentCardIndex := currentCardIndex s;
     answers := answers s;
     sessionHistory := sessionHistory s;
     isLoading := isLoading s;
     loadingMessage := loadingMessage s;
     error := error s;
     isAnswered := isAnswered s;
     isEvaluating := isEvaluating s |}.

Definition set_currentPaper (v : option Paper) (s : AppState) : AppState :=
  {| screen := screen s;
     papers := papers s;
     paperStats := paperStats s;
     currentPaper := v;
     flashcards := flashcards s;
     currentCardIndex := currentCardIndex s;
     answers := answers s;
     sessionHistory := sessionHistory s;
     isLoading := isLoading s;
     loadingMessage := loadingMessage s;
     error := error s;
     isAnswered := isAnswered s;
     isEvaluating := isEvaluating s |}.

Definition set_flashcards (v : list Flashcard) (s : AppState) : AppState :=
  {| screen := screen s;
     papers := papers s;
     paperStats := paperStats s;
     currentPaper := currentPaper s;
     flashcards := v;
     currentCardIndex := currentCardIndex s;
     answers := answers s;
     sessionHistory := sessionHistory s;
     isLoading := isLoading s;
     loadingMessage := loadingMessage s;
     error := error s;
     isAnswered := isAnswered s;
     isEvaluating := isEvaluating s |}.

Definition set_currentCardIndex (v : Z) (s : AppState) : AppState :=
  {| screen := screen s;
     papers := papers s;
     paperStats := paperStats s;
     currentPaper := currentPaper s;
     flashcards := flashcards s;
     currentCardIndex := v;
     answers := answers s;
     sessionHistory := sessionHistory s;
     isLoading := isLoading s;
     loadingMessage := loadingMessage s;
     error := error s;
     isAnswered := isAnswered s;
     isEvaluating := isEvaluating s |}.

Definition set_answers (v : list (option Answer)) (s : AppState) : AppState :=
  {| screen := screen s;
     papers := papers s;
     paperStats := paperStats s;
     currentPaper := currentPaper s;
     flashcards := flashcards s;
     currentCardIndex := currentCardIndex s;
     answers := v;
     sessionHistory := sessionHistory s;
     isLoading := isLoading s;
     loadingMessage := loadingMessage s;
     error := error s;
     isAnswered := isAnswered s;
     isEvaluating := isEvaluating s |}.

Definition set_sessionHistory (v : list Session) (s : AppState) : AppState :=
  {| screen := screen s;
     papers := papers s;
     paperStats := paperStats s;
     currentPaper := currentPaper s;
     flashcards := flashcards s;
     currentCardIndex := currentCardIndex s;
     answers := answers s;
     sessionHistory := v;
     isLoading := isLoading s;
     loadingMessage := loadingMessage s;
     error := error s;
     isAnswered := isAnswered s;
     isEvaluating := isEvaluating s |}.

Definition set_isLoading (v : bool) (s : AppState) : AppState :=
  {| screen := screen s;
     papers := papers s;
     paperStats := paperStats s;
     currentPaper := currentPaper s;
     flashcards := flashcards s;
     currentCardIndex := currentCardIndex s;
     answers := answers s;
     sessionHistory := sessionHistory s;
     isLoading := v;
     loadingMessage := loadingMessage s;
     error := error s;
     isAnswered := isAnswered s;
     isEvaluating := isEvaluating s |}.

Definition set_loadingMessage (v : string) (s : AppState) : AppState :=
  {| screen := screen s;
     papers := papers s;
     paperStats := paperStats s;
     currentPaper := currentPaper s;
     flashcards := flashcards s;
     currentCardIndex := currentCardIndex s;
     answers := answers s;
     sessionHistory := sessionHistory s;
     isLoading := isLoading s;
     loadingMessage := v;
     error := error s;
     isAnswered := isAnswered s;
     isEvaluating := isEvaluating s |}.

Definition set_error (v : option string) (s : AppState) : AppState :=
  {| screen := screen s;
     papers := papers s;
     paperStats := paperStats s;
     currentPaper := currentPaper s;
     flashcards := flashcards s;
     currentCardIndex := currentCardIndex s;
     answers := answers s;
     sessionHistory := sessionHistory s;
     isLoading := isLoading s;
     loadingMessage := loadingMessage s;
     error := v;
     isAnswered := isAnswered s;
     isEvaluating := isEvaluating s |}.

Definition set_isAnswered (v : bool) (s : AppState) : AppState :=
  {| screen := screen s;
     papers := papers s;
     paperStats := paperStats s;
     currentPaper := currentPaper s;
     flashcards := flashcards s;
     currentCardIndex := currentCardIndex s;
     answers := answers s;
     sessionHistory := sessionHistory s;
     isLoading := isLoading s;
     loadingMessage := loadingMessage s;
     error := error s;
     isAnswered := v;
     isEvaluating := isEvaluating s |}.

Definition set_isEvaluating (v : bool) (s : AppState) : AppState :=
  {| screen := screen s;
     papers := papers s;
     paperStats := paperStats s;
     currentPaper := currentPaper s;
     flashcards := flashcards s;
     currentCardIndex := currentCardIndex s;
     answers := answers s;
     sessionHistory := sessionHistory s;
     isLoading := isLoading s;
     loadingMessage := loadingMessage s;
     error := error s;
     isAnswered := isAnswered s;
     isEvaluating := v |}.

(** [array[i]] for an index that is an integer: [undefined] for a hole
    and outside the array. *)
Definition array_get {A : Type} (array : list (option A)) (i : Z)
    : option A :=
  if i <? 0 then None
  else
    match nth_error array (Z.to_nat i) with
    | Some element => element
    | None => None
    end.

Fixpoint set_nth {A : Type} (n : nat) (v : A) (array : list (option A))
    : list (option A) :=
  match n, array with
  | O, [] => [Some v]
  | O, _ :: rest => Some v :: rest
  | S n', [] => None :: set_nth n' v []
  | S n', element :: rest => element :: set_nth n' v rest
  end.

(** [array[i] = v] on a copy: the element is replaced, or the array grows
    up to it, leaving holes. A negative index names no element (the
    assignment makes a property of the copy, which nothing reads). *)
Definition array_set {A : Type} (array : list (option A)) (i : Z) (v : A)
    : list (option A) :=
  if i <? 0 then array else set_nth (Z.to_nat i) v array.

(** [message || '']. *)
Definition or_empty (message : option string) : string :=
  match message with
  | Some m => m
  | None => EmptyString
  end.

(** [initialState], for the papers of [INITIAL_PAPERS]. *)
Definition initialState (INITIAL_PAPERS : list Paper) : AppState :=
  {| screen := home;
     papers := INITIAL_PAPERS;
     paperStats := [];
     currentPaper := None;
     flashcards := [];
     currentCardIndex := 0;
     answers := [];
     sessionHistory := [];
     isLoading := false;
     loadingMessage := EmptyString;
     error := None;
     isAnswered := false;
     isEvaluating := false |}.

(** [reducer(state, action)]. *)
Definition reducer (state : AppState) (action : AppAction) : AppState :=
  match action with
  | SET_LOADING flag message =>
      set_error None
        (set_loadingMessage (or_empty message) (set_isLoading flag state))
  | SET_ERROR payload =>
      set_error (Some payload) (set_isLoading false state)
  | SET_EVALUATING payload => set_isEvaluating payload state
  | SET_PAPERS payload => set_isLoading false (set_papers payload state)
  | SET_PAPER_STATS payload => set_paperStats payload state
  | SET_SESSION_HISTORY payload => set_sessionHistory payload state
  | SELECT_PAPER payload =>
      set_screen loading (set_currentPaper (Some payload) state)
  | SET_FLASHCARDS payload =>
      set_isEvaluating false
        (set_isAnswered false
           (set_isLoading false
              (set_screen review
                 (set_answers []
                    (set_currentCardIndex 0 (set_flashcards payload state))))))
  | MARK_ANSWERED => set_isEvaluating false (set_isAnswered true state)
  | SAVE_ANSWER payload =>
      let newAnswers :=
        array_set (answers state) (currentCardIndex state) payload in
      set_answers newAnswers state
  | NEXT_CARD =>
      if Z.of_nat (List.length (flashcards state)) - 1 <=? currentCardIndex state
      then set_isEvaluating false (set_screen summary state)
      else
        set_isEvaluating false
          (set_isAnswered false
             (set_currentCardIndex (currentCardIndex state + 1) state))
  | PREV_CARD =>
      set_isEvaluating false
        (set_isAnswered
           (match array_get (answers state)
                    (Z.max 0 (currentCardIndex state - 1)) with
            | Some _ => true
            | None => false
            end)
           (set_currentCardIndex (Z.max 0 (currentCardIndex state - 1))
              state))
  | SET_SCREEN payload =>
      set_isEvaluating false (set_isAnswered false (set_screen payload state))
  | RESET_SESSION =>
      set_isEvaluating false
        (set_isAnswered false
           (set_screen home
              (set_answers []
                 (set_currentCardIndex 0
                    (set_flashcards [] (set_currentPaper None state))))))
  | OTHER_ACTION _ => state
  end.

(** The state after a sequence of actions, dispatched in order. *)
Definition dispatch_all (state : AppState) (actions : list AppAction)
    : AppState :=
  fold_left reducer actions state.

End Reducer.

Arguments AppState : clear implicits.
Arguments AppAction : clear implicits.

End AppReducer.

(** ** Facts about binary64 arithmetic

    The specification of the primitive operations ([SpecFloat]) rounds
    through [binary_round_aux], which answers NaN on a negative mantissa.
    The mantissas it is called on are never negative, so an operation on
    finite numbers yields a number. *)

Module SpecFloatFacts.

Local Open Scope Z_scope.

(** The specification-level test for NaN. *)
Definition SFis_nan (x : spec_float) : bool :=
  match x with
  | S754_nan => true
  | _ => false
  end.

Definition SFis_zero (x : spec_float) : bool :=
  match x with
  | S754_zero _ => true
  | _ => false
  end.

Definition SFis_infinity (x : spec_float) : bool :=
  match x with
  | S754_infinity _ => true
  | _ => false
  end.

(** Zero or a finite non-zero number. *)
Definition SFis_finite (x : spec_float) : bool :=
  match x with
  | S754_zero _ | S754_finite _ _ _ => true
  | _ => false
  end.

Lemma iter_pos_invariant (A : Type) (P : A -> Prop) (f : A -> A) :
  (forall x, P x -> P (f x)) ->
  forall n x, P x -> P (iter_pos f n x).
Proof.
  intros Hf n.
  induction n as [n IH | n IH | ]; intros x Hx; simpl.
  - apply IH, IH, Hf, Hx.
  - apply IH, IH, Hx.
  - apply Hf, Hx.
Qed.

Lemma shr_1_nonneg mrs : 0 <= shr_m mrs -> 0 <= shr_m (shr_1 mrs).
Proof.
  destruct mrs as [m r s]; simpl.
  destruct m as [ | [p | p | ] | p]; simpl; lia.
Qed.

Lemma shr_nonneg mrs e n : 0 <= shr_m mrs -> 0 <= shr_m (fst (shr mrs e n)).
Proof.
  intros H. destruct n as [ | p | p]; simpl; trivial.
  apply (iter_pos_invariant _ (fun r => 0 <= shr_m r)); trivial.
  exact shr_1_nonneg.
Qed.

Lemma shr_record_of_loc_m m l : shr_m (shr_record_of_loc m l) = m.
Proof. destruct l as [ | [ | | ]]; reflexivity. Qed.

Lemma shr_fexp_nonneg prec emax m e l :
  0 <= m -> 0 <= shr_m (fst (shr_fexp prec emax m e l)).
Proof.
  intros H. unfold shr_fexp. apply shr_nonneg.
  now rewrite shr_record_of_loc_m.
Qed.

Lemma round_nearest_even_nonneg m l : 0 <= m -> 0 <= round_nearest_even m l.
Proof.
  intros H. destruct l as [ | [ | | ]]; simpl; trivial.
  - destruct (Z.even m); lia.
  - lia.
Qed.

Lemma binary_round_aux_not_nan prec emax sx mx ex lx :
  0 <= mx -> SFis_nan (binary_round_aux prec emax sx mx ex lx) = false.
Proof.
  intros H. unfold binary_round_aux.
  pose proof (shr_fexp_nonneg prec emax mx ex lx H) as H1.
  destruct (shr_fexp prec emax mx ex lx) as [mrs' e']; simpl in H1.
  pose proof (shr_fexp_nonneg prec emax _ e' loc_Exact
                (round_nearest_even_nonneg _ (loc_of_shr_record mrs') H1)) as H2.
  destruct (shr_fexp prec emax _ e' loc_Exact) as [mrs'' e'']; simpl in H2.
  destruct (shr_m mrs'') as [ | m | m]; try reflexivity.
  - now destruct (e'' <=? emax - prec).
  - lia.
Qed.

Lemma binary_round_not_nan prec emax sx mx ex :
  SFis_nan (binary_round prec emax sx mx ex) = false.
Proof.
  unfold binary_round.
  destruct (shl_align mx ex _) as [mz ez].
  apply binary_round_aux_not_nan. lia.
Qed.

Lemma binary_normalize_not_nan prec emax m e szero :
  SFis_nan (binary_normalize prec emax m e szero) = false.
Proof.
  destruct m; simpl; trivial; apply binary_round_not_nan.
Qed.

(** A product is NaN only for a NaN operand or for zero times infinity. *)
Lemma SFmul_not_nan prec emax x y :
  SFis_nan x = false -> SFis_nan y = false ->
  SFis_infinity x && SFis_zero y = false ->
  SFis_zero x && SFis_infinity y = false ->
  SFis_nan (SFmul prec emax x y) = false.
Proof.
  intros Hx Hy H1 H2.
  destruct x as [sx | sx | | sx mx ex], y as [sy | sy | | sy my ey];
    simpl in *; try reflexivity; try discriminate.
  apply binary_round_aux_not_nan. lia.
Qed.

(** A sum is NaN only for a NaN operand or for two infinities. *)
Lemma SFadd_not_nan prec emax x y :
  SFis_nan x = false -> SFis_nan y = false ->
  SFis_finite x = true \/ SFis_finite y = true ->
  SFis_nan (SFadd prec emax x y) = false.
Proof.
  intros Hx Hy H.
  destruct x as [sx | sx | | sx mx ex], y as [sy | sy | | sy my ey];
    simpl in *; try reflexivity; try discriminate.
  - now destruct sx, sy.
  - destruct H; discriminate.
  - apply binary_normalize_not_nan.
Qed.

Lemma SFsub_not_nan prec emax x y :
  SFis_nan x = false -> SFis_nan y = false ->
  SFis_finite x = true \/ SFis_finite y = true ->
  SFis_nan (SFsub prec emax x y) = false.
Proof.
  intros Hx Hy H.
  destruct x as [sx | sx | | sx mx ex], y as [sy | sy | | sy my ey];
    simpl in *; try reflexivity; try discriminate.
  - now destruct sx, sy.
  - destruct H; discriminate.
  - apply binary_normalize_not_nan.
Qed.

(** Swapping the operands of a comparison reverses its result. *)
Lemma SFcompare_swap x y :
  SFcompare y x = option_map CompOpp (SFcompare x y).
Proof.
  destruct x as [sx | sx | | sx mx ex], y as [sy | sy | | sy my ey];
    simpl; try reflexivity;
    try (destruct sx; reflexivity); try (destruct sy; reflexivity);
    try (destruct sx, sy; reflexivity).
  destruct sx, sy; simpl; try reflexivity;
    rewrite (Z.compare_antisym ex ey);
    destruct (ex ?= ey); simpl; try reflexivity;
    repeat f_equal; symmetry; exact (Pos.compare_cont_antisym mx my Eq).
Qed.

Lemma SFltb_SFleb x y : SFltb x y = true -> SFleb x y = true.
Proof.
  unfold SFltb, SFleb. now destruct (SFcompare x y) as [[ | | ] | ].
Qed.

Lemma SFleb_SFltb_false x y : SFleb x y = true -> SFltb y x = false.
Proof.
  unfold SFltb, SFleb. rewrite (SFcompare_swap x y).
  now destruct (SFcompare x y) as [[ | | ] | ].
Qed.

Lemma SFltb_false_SFleb x y :
  SFis_nan x = false -> SFis_nan y = false ->
  SFltb y x = false -> SFleb x y = true.
Proof.
  unfold SFltb, SFleb. rewrite (SFcompare_swap x y).
  intros Hx Hy.
  assert (SFcompare x y <> None) as Hc
    by (destruct x, y; simpl in *; congruence).
  now destruct (SFcompare x y) as [[ | | ] | ].
Qed.

Lemma SFleb_not_SFltb_SFeqb x y :
  SFleb x y = true -> SFltb x y = false -> SFeqb x y = true.
Proof.
  unfold SFleb, SFltb, SFeqb. now destruct (SFcompare x y) as [[ | | ] | ].
Qed.

Lemma SFeqb_swap x y : SFeqb y x = SFeqb x y.
Proof.
  unfold SFeqb. rewrite (SFcompare_swap x y).
  now destruct (SFcompare x y) as [[ | | ] | ].
Qed.

(** Two numbers that compare equal are the same number, unless they are
    zeros: equality identifies only [+0] and [-0]. *)
Lemma SFeqb_finite_eq x s m e :
  SFeqb x (S754_finite s m e) = true -> x = S754_finite s m e.
Proof.
  unfold SFeqb.
  destruct x as [sx | sx | | sx mx ex]; cbn [SFcompare];
    try discriminate; try (destruct sx; discriminate);
    try (destruct s; discriminate).
  destruct sx, s; try discriminate;
    destruct (Z.compare_spec ex e) as [-> | | ]; try discriminate;
    change (PosDef.Pos.compare_cont Eq mx m) with (mx ?= m)%positive;
    destruct (Pos.compare_spec mx m) as [-> | | ]; try discriminate;
    reflexivity.
Qed.

End SpecFloatFacts.

(** ** Facts about JavaScript numbers *)

Module JsNumberFacts.

Import JsNumber SpecFloatFacts.
Local Open Scope float_scope.

Lemma is_nan_spec x : is_nan x = SFis_nan (Prim2SF x).
Proof.
  unfold Prim2SF.
  destruct (is_nan x); trivial.
  destruct (is_zero x); trivial.
  destruct (is_infinity x); trivial.
  destruct (Z.frexp x) as [r exp].
  destruct (shr_fexp _ _ _ _ _) as [mrs e'].
  now destruct (shr_m mrs).
Qed.

Lemma is_finite_spec x : is_finite x = SFis_finite (Prim2SF x).
Proof.
  unfold is_finite, is_infinity.
  rewrite is_nan_spec, FloatAxioms.eqb_spec, abs_spec.
  change (Prim2SF infinity) with (S754_infinity false).
  now destruct (Prim2SF x) as [s | s | | s m e].
Qed.

Lemma is_finite_not_nan x : is_finite x = true -> is_nan x = false.
Proof.
  rewrite is_finite_spec, is_nan_spec. now destruct (Prim2SF x).
Qed.

(** *** Comparisons *)

Lemma ltb_leb x y : (x <? y) = true -> (x <=? y) = true.
Proof. rewrite ltb_spec, leb_spec. apply SFltb_SFleb. Qed.

Lemma leb_ltb_false x y : (x <=? y) = true -> (y <? x) = false.
Proof. rewrite ltb_spec, leb_spec. apply SFleb_SFltb_false. Qed.

Lemma ltb_false_leb x y :
  is_nan x = false -> is_nan y = false -> (y <? x) = false -> (x <=? y) = true.
Proof. rewrite !is_nan_spec, ltb_spec, leb_spec. apply SFltb_false_SFleb. Qed.

Lemma leb_refl x : is_nan x = false -> (x <=? x) = true.
Proof.
  unfold is_nan. rewrite leb_spec, FloatAxioms.eqb_spec. unfold SFeqb, SFleb.
  now destruct (SFcompare (Prim2SF x) (Prim2SF x)) as [[ | | ] | ].
Qed.

Lemma leb_not_nan x y : (x <=? y) = true -> is_nan x = false /\ is_nan y = false.
Proof.
  rewrite !is_nan_spec, leb_spec. unfold SFleb.
  now destruct (Prim2SF x), (Prim2SF y).
Qed.

Lemma ltb_not_nan x y : (x <? y) = true -> is_nan x = false /\ is_nan y = false.
Proof. intros H. now apply leb_not_nan, ltb_leb. Qed.

(** *** [Math.max], [Math.min] and [Math.round] *)

Lemma Math_max_nan a b :
  is_nan (Math_max a b) = is_nan a || is_nan b.
Proof.
  unfold Math_max.
  destruct (is_nan a) eqn:Ha, (is_nan b) eqn:Hb; simpl; trivial.
  destruct (a <? b); trivial. destruct (b <? a); trivial.
  now destruct (get_sign a).
Qed.

Lemma Math_min_nan a b :
  is_nan (Math_min a b) = is_nan a || is_nan b.
Proof.
  unfold Math_min.
  destruct (is_nan a) eqn:Ha, (is_nan b) eqn:Hb; simpl; trivial.
  destruct (a <? b); trivial. destruct (b <? a); trivial.
  now destruct (get_sign a).
Qed.

(** [Math.max(a, b)] is at least [a], unless an argument is NaN. *)
Lemma Math_max_lower a b :
  is_nan a = false -> is_nan b = false -> (a <=? Math_max a b) = true.
Proof.
  intros Ha Hb. unfold Math_max. rewrite Ha, Hb; simpl.
  destruct (a <? b) eqn:Hab; [now apply ltb_leb | ].
  destruct (b <? a) eqn:Hba; [now apply leb_refl | ].
  destruct (get_sign a); [now apply ltb_false_leb | now apply leb_refl].
Qed.

(** [Math.min(a, b)] is at most [b], unless an argument is NaN. *)
Lemma Math_min_upper a b :
  is_nan a = false -> is_nan b = false -> (Math_min a b <=? b) = true.
Proof.
  intros Ha Hb. unfold Math_min. rewrite Ha, Hb; simpl.
  destruct (a <? b) eqn:Hab; [now apply ltb_leb | ].
  destruct (b <? a) eqn:Hba; [now apply leb_refl | ].
  destruct (get_sign a); [now apply ltb_false_leb | now apply leb_refl].
Qed.

(** [round_half_up] is the integer nearest to [x = (-1)^s * m * 2^e], the
    upper one at a tie: [n - 1/2 <= x < n + 1/2], stated on integers after
    multiplying by [2 * 2^(-e)]. *)
Lemma round_half_up_nearest s m e :
  (e < 0)%Z ->
  let n := round_half_up s m e in
  ((2 * n - 1) * 2 ^ (- e) <= 2 * cond_Zopp s (Zpos m)
   < (2 * n + 1) * 2 ^ (- e))%Z.
Proof.
  intros He. unfold round_half_up.
  replace (1 - e)%Z with (Z.succ (- e)) by lia.
  rewrite Z.pow_succ_r by lia.
  assert (0 < 2 ^ (- e))%Z as HP by (apply Z.pow_pos_nonneg; lia).
  set (P := (2 ^ (- e))%Z) in *.
  set (x := (2 * cond_Zopp s (Z.pos m))%Z).
  pose proof (Z.div_mod (x + P) (2 * P) ltac:(lia)) as Hdiv.
  pose proof (Z.mod_pos_bound (x + P) (2 * P) ltac:(lia)) as Hmod.
  cbv zeta. nia.
Qed.

Lemma of_Z_not_nan n : is_nan (of_Z n) = false.
Proof.
  destruct n as [ | p | p]; simpl; trivial;
    rewrite is_nan_spec, ?opp_spec, of_uint63_spec.
  - apply binary_normalize_not_nan.
  - pose proof (binary_normalize_not_nan prec emax
                  (Uint63Axioms.to_Z (Uint63Axioms.of_Z (Z.pos p))) 0 false) as H.
    now destruct (binary_normalize _ _ _ _ _).
Qed.

(** [Math.round] yields NaN only for NaN. *)
Lemma Math_round_nan x : is_nan (Math_round x) = is_nan x.
Proof.
  unfold Math_round.
  destruct (Prim2SF x) as [s | s | | s m e] eqn:Hx; trivial.
  destruct (0 <=? e)%Z; trivial.
  rewrite (is_nan_spec x), Hx; simpl.
  destruct (round_half_up s m e =? 0)%Z.
  - now destruct s.
  - apply of_Z_not_nan.
Qed.

(** *** Arithmetic that cannot yield NaN *)

Lemma sub_not_nan x y :
  is_nan x = false -> is_nan y = false ->
  is_finite x = true \/ is_finite y = true ->
  is_nan (x - y) = false.
Proof.
  rewrite !is_nan_spec, !is_finite_spec, sub_spec. apply SFsub_not_nan.
Qed.

Lemma add_not_nan x y :
  is_nan x = false -> is_nan y = false ->
  is_finite x = true \/ is_finite y = true ->
  is_nan (x + y) = false.
Proof.
  rewrite !is_nan_spec, !is_finite_spec, add_spec. apply SFadd_not_nan.
Qed.

Lemma mul_finite_not_nan x y :
  is_finite x = true -> is_finite y = true -> is_nan (x * y) = false.
Proof.
  rewrite !is_nan_spec, !is_finite_spec, mul_spec. intros Hx Hy.
  apply SFmul_not_nan; destruct (Prim2SF x), (Prim2SF y); trivial; discriminate.
Qed.

(** *** Adding zero *)

Lemma add_zero_r x : Prim2SF x <> S754_zero true -> x + 0 = x.
Proof.
  intros H. apply Prim2SF_inj. rewrite add_spec.
  change (Prim2SF 0) with (S754_zero false).
  destruct (Prim2SF x) as [s | s | | s m e]; simpl; trivial.
  destruct s; trivial. congruence.
Qed.

Lemma ltb_neg_zero_l a : (neg_zero <? a) = (0 <? a).
Proof.
  rewrite !ltb_spec.
  change (Prim2SF 0) with (S754_zero false).
  change (Prim2SF neg_zero) with (S754_zero true).
  unfold SFltb. now destruct (Prim2SF a).
Qed.

Lemma ltb_neg_zero_r a : (a <? neg_zero) = (a <? 0).
Proof.
  rewrite !ltb_spec.
  change (Prim2SF 0) with (S754_zero false).
  change (Prim2SF neg_zero) with (S754_zero true).
  unfold SFltb. now destruct (Prim2SF a).
Qed.

(** Under [Math.max] with a positive bound, adding zero changes nothing:
    [-0 + 0] is [+0], and both zeros lie below the bound. *)
Lemma Math_max_add_zero a x :
  (0 <? a) = true -> Math_max a (x + 0) = Math_max a x.
Proof.
  intros Ha.
  destruct (Prim2SF x) as [[ | ] | s | | s m e] eqn:Hx;
    try (rewrite add_zero_r; [reflexivity | congruence]).
  assert (x = neg_zero) as ->
    by (rewrite <- (SF2Prim_Prim2SF x), Hx; reflexivity).
  change (neg_zero + 0) with 0.
  unfold Math_max.
  rewrite ltb_neg_zero_l, ltb_neg_zero_r, Ha.
  now rewrite (leb_ltb_false 0 a (ltb_leb _ _ Ha)).
Qed.

(** *** The thresholds of the scheduler *)

Lemma lt_0_lt_3 q : (q <? 0) = true -> (q <? 3) = true.
Proof.
  rewrite !ltb_spec.
  change (Prim2SF 0) with (S754_zero false).
  change (Prim2SF 3) with (S754_finite false 6755399441055744 (-51)).
  unfold SFltb.
  destruct (Prim2SF q) as [s | s | | s m e]; cbn [SFcompare]; trivial;
    now destruct s.
Qed.

Lemma lt_5_not_lt_3 q : (5 <? q) = true -> (q <? 3) = false.
Proof.
  rewrite !ltb_spec.
  change (Prim2SF 5) with (S754_finite false 5629499534213120 (-50)).
  change (Prim2SF 3) with (S754_finite false 6755399441055744 (-51)).
  unfold SFltb.
  destruct (Prim2SF q) as [s | s | | s m e]; cbn [SFcompare]; trivial;
    destruct s; trivial; try discriminate.
  destruct (Z.compare_spec (-50) e), (Z.compare_spec e (-51)); trivial;
    try lia; discriminate.
Qed.

Lemma eq_1_not_eq_0 p : (p =? 1) = true -> (p =? 0) = false.
Proof.
  rewrite !FloatAxioms.eqb_spec.
  change (Prim2SF 0) with (S754_zero false).
  change (Prim2SF 1) with (S754_finite false 4503599627370496 (-52)).
  unfold SFeqb.
  destruct (Prim2SF p) as [s | s | | s m e]; cbn [SFcompare]; trivial;
    now destruct s.
Qed.

(** The SM-2 adjustment [0.1 - (5 - q) * (0.08 + (5 - q) * 0.02)] is a
    number whenever [q] is: [5 - q] is zero, finite or infinite, and in each
    case no product is zero times infinity and no sum adds two infinities. *)
Lemma ease_delta_not_nan q :
  is_nan q = false ->
  is_nan (0.1 - (5 - q) * (0.08 + (5 - q) * 0.02)) = false.
Proof.
  intros Hq.
  assert (is_nan (5 - q) = false) as Hd
    by (apply sub_not_nan; trivial; now left).
  revert Hd. generalize (5 - q). clear q Hq. intros d.
  rewrite !is_nan_spec, sub_spec, mul_spec, add_spec, mul_spec.
  destruct (Prim2SF d) as [s | s | | s m e]; intros Hd.
  - destruct s; vm_compute; reflexivity.
  - destruct s; vm_compute; reflexivity.
  - discriminate.
  - apply SFsub_not_nan; [reflexivity | | now left].
    apply SFmul_not_nan; trivial.
    apply SFadd_not_nan; [reflexivity | | now left].
    apply SFmul_not_nan; trivial.
Qed.

(** *** What [Math.max], [Math.min] and [Math.round] return *)

Lemma leb_not_ltb_eqb x y :
  (x <=? y) = true -> (x <? y) = false -> (x =? y) = true.
Proof.
  rewrite leb_spec, ltb_spec, FloatAxioms.eqb_spec.
  apply SFleb_not_SFltb_SFeqb.
Qed.

(** A number equal to a non-zero finite number is that number. *)
Lemma eqb_finite_eq x y s m e :
  Prim2SF y = S754_finite s m e -> (x =? y) = true -> x = y.
Proof.
  intros Hy. rewrite FloatAxioms.eqb_spec, Hy. intros H.
  apply Prim2SF_inj. rewrite Hy. now apply SFeqb_finite_eq.
Qed.

Lemma Math_max_right a b : (a <? b) = true -> Math_max a b = b.
Proof.
  intros H. destruct (ltb_not_nan _ _ H) as [Ha Hb].
  unfold Math_max. now rewrite Ha, Hb, H.
Qed.

Lemma Math_max_left a b : (b <? a) = true -> Math_max a b = a.
Proof.
  intros H. destruct (ltb_not_nan _ _ H) as [Hb Ha].
  unfold Math_max.
  now rewrite Ha, Hb, H, (leb_ltb_false _ _ (ltb_leb _ _ H)).
Qed.

Lemma Math_min_left a b : (a <? b) = true -> Math_min a b = a.
Proof.
  intros H. destruct (ltb_not_nan _ _ H) as [Ha Hb].
  unfold Math_min. now rewrite Ha, Hb, H.
Qed.

Lemma Math_min_right a b : (b <? a) = true -> Math_min a b = b.
Proof.
  intros H. destruct (ltb_not_nan _ _ H) as [Hb Ha].
  unfold Math_min.
  now rewrite Ha, Hb, H, (leb_ltb_false _ _ (ltb_leb _ _ H)).
Qed.

(** The floor of 1.3: [Math.max(1.3, x)] is [x] from 1.3 on, and 1.3
    below. *)
Lemma Math_max_floor x :
  ((1.3 <=? x) = true -> Math_max 1.3 x = x)
  /\ ((x <? 1.3) = true -> Math_max 1.3 x = 1.3).
Proof.
  split; intros H; [ | now apply Math_max_left].
  destruct (1.3 <? x) eqn:Hlt; [now apply Math_max_right | ].
  pose proof (leb_not_ltb_eqb _ _ H Hlt) as He.
  rewrite FloatAxioms.eqb_spec, <- SFeqb_swap, <- FloatAxioms.eqb_spec in He.
  now rewrite (eqb_finite_eq x 1.3 _ _ _ eq_refl He).
Qed.

(** The cap of 60: [Math.min(x, 60)] is [x] below 60, and 60 from 60
    on. *)
Lemma Math_min_cap x :
  ((x <? 60) = true -> Math_min x 60 = x)
  /\ ((60 <=? x) = true -> Math_min x 60 = 60).
Proof.
  split; intros H; [now apply Math_min_left | ].
  destruct (60 <? x) eqn:Hlt; [now apply Math_min_right | ].
  pose proof (leb_not_ltb_eqb _ _ H Hlt) as He.
  rewrite FloatAxioms.eqb_spec, <- SFeqb_swap, <- FloatAxioms.eqb_spec in He.
  now rewrite (eqb_finite_eq x 60 _ _ _ eq_refl He).
Qed.

(** [Math.round] on a finite number with a fractional part,
    [x = (-1)^s * m * 2^e] with [e < 0]: the result is the integer [n]
    with [n - 1/2 <= x < n + 1/2], a zero taking the sign of [x]. *)
Lemma Math_round_nearest x s m e :
  Prim2SF x = S754_finite s m e ->
  (e < 0)%Z ->
  let n := round_half_up s m e in
  ((2 * n - 1) * 2 ^ (- e) <= 2 * cond_Zopp s (Zpos m)
   < (2 * n + 1) * 2 ^ (- e))%Z
  /\ Math_round x
     = if (n =? 0)%Z then (if s then neg_zero else zero) else of_Z n.
Proof.
  intros Hx He. split; [now apply round_half_up_nearest | ].
  unfold Math_round. rewrite Hx.
  now replace (0 <=? e)%Z with false by (symmetry; apply Z.leb_gt; lia).
Qed.

(** [Math.round] leaves NaN, the infinities, the zeros and the numbers
    without a fractional part as they are. *)
Lemma Math_round_integral x :
  match Prim2SF x with
  | S754_finite _ _ e => (0 <= e)%Z
  | _ => True
  end ->
  Math_round x = x.
Proof.
  unfold Math_round. destruct (Prim2SF x) as [s | s | | s m e]; trivial.
  intros H. now replace (0 <=? e)%Z with true by (symmetry; apply Z.leb_le; lia).
Qed.

End JsNumberFacts.

(** ** Properties of the scheduler *)

Module SchedulerProperties.

Import JsNumber JsNumberFacts SpacedRepetition.
Local Open Scope float_scope.

Ltac failure_branch H :=
  unfold calculateNextReview; rewrite H.

Ltac success_branch H :=
  unfold calculateNextReview; rewrite H; cbn [interval easeFactor].

(** C4. A quality below 3 resets the interval to 1, whatever the previous
    interval, and lowers the ease factor by 0.2, not below 1.3: the ease
    returned is [easeFactor - 0.2] when that is 1.3 or more and 1.3 when it
    is less. So (0, 10, 2.0) gives interval 1 and ease 1.8, and at the
    floor, [easeFactor = 1.3] with quality 0 stays 1.3. *)
Theorem failed_review_resets (quality previousInterval easeFactor : number) :
  (quality <? 3) = true ->
  interval (calculateNextReview quality previousInterval easeFactor) = 1
  /\ SpacedRepetition.easeFactor
       (calculateNextReview quality previousInterval easeFactor)
     = Math_max 1.3 (easeFactor - 0.2)
  /\ ((1.3 <=? easeFactor - 0.2) = true ->
      SpacedRepetition.easeFactor
        (calculateNextReview quality previousInterval easeFactor)
      = easeFactor - 0.2)
  /\ ((easeFactor - 0.2 <? 1.3) = true ->
      SpacedRepetition.easeFactor
        (calculateNextReview quality previousInterval easeFactor)
      = 1.3)
  /\ calculateNextReview 0 10 2.0 = {| interval := 1; easeFactor := 1.8 |}
  /\ calculateNextReview 2 60 2.5 = {| interval := 1; easeFactor := 2.3 |}
  /\ calculateNextReview 0 10 1.4 = {| interval := 1; easeFactor := 1.3 |}
  /\ SpacedRepetition.easeFactor (calculateNextReview 0 previousInterval 1.3)
     = 1.3.
Proof.
  intros H. failure_branch H. cbn [interval SpacedRepetition.easeFactor].
  destruct (Math_max_floor (easeFactor - 0.2)) as [Hge Hlt].
  repeat split; assumption.
Qed.

Lemma failed_review_resets_witness :
  interval (calculateNextReview 0 10 2.0) = 1
  /\ SpacedRepetition.easeFactor (calculateNextReview 0 10 2.0)
     = Math_max 1.3 (2.0 - 0.2)
  /\ ((1.3 <=? 2.0 - 0.2) = true ->
      SpacedRepetition.easeFactor (calculateNextReview 0 10 2.0) = 2.0 - 0.2)
  /\ ((2.0 - 0.2 <? 1.3) = true ->
      SpacedRepetition.easeFactor (calculateNextReview 0 10 2.0) = 1.3)
  /\ calculateNextReview 0 10 2.0 = {| interval := 1; easeFactor := 1.8 |}
  /\ calculateNextReview 2 60 2.5 = {| interval := 1; easeFactor := 2.3 |}
  /\ calculateNextReview 0 10 1.4 = {| interval := 1; easeFactor := 1.3 |}
  /\ SpacedRepetition.easeFactor (calculateNextReview 0 10 1.3) = 1.3.
Proof.
  apply (failed_review_resets 0 10 2.0). reflexivity.
Defined.

(** How [Math.round] rounds: to the nearest integer, a tie towards
    +Infinity, a zero result keeping the sign. *)
Example Math_round_samples :
  Math_round 7.5 = 8 /\ Math_round 2.5 = 3 /\ Math_round (-2.5) = -2
  /\ Math_round 2.4 = 2 /\ Math_round 2.6 = 3 /\ Math_round (-0.4) = neg_zero
  /\ Math_round 0.49999999999999994 = 0
  /\ Math_round infinity = infinity /\ Math_round 1e300 = 1e300.
Proof. vm_compute. repeat split. Qed.

(** C5. After a quality of 3 or more the interval is 1 when the previous
    interval is 0, 3 when it is 1, and otherwise the product of the previous
    interval and the ease factor, rounded to the nearest integer and capped
    at 60: the rounded product itself below 60, and 60 from 60 on. A
    product with a fractional part rounds to the integer [n] with
    [n - 1/2 <= product < n + 1/2]. So (5, 1, 2.6) gives 3 and not
    round(1 * 2.6), (4, 3, 2.5) gives round(7.5) = 8, (3, 2, 1.3) gives
    round(2.6) = 3, (4, 4, 1.6) gives round(6.4) = 6 and (5, 30, 2.5) gives
    60, not 75. *)
Theorem successful_review_interval
    (quality previousInterval easeFactor : number) :
  (3 <=? quality) = true ->
  ((previousInterval =? 0) = true ->
   interval (calculateNextReview quality previousInterval easeFactor) = 1)
  /\ ((previousInterval =? 1) = true ->
      interval (calculateNextReview quality previousInterval easeFactor) = 3)
  /\ ((previousInterval =? 0) = false -> (previousInterval =? 1) = false ->
      interval (calculateNextReview quality previousInterval easeFactor)
      = Math_min (Math_round (previousInterval * easeFactor)) 60
      /\ ((Math_round (previousInterval * easeFactor) <? 60) = true ->
          interval (calculateNextReview quality previousInterval easeFactor)
          = Math_round (previousInterval * easeFactor))
      /\ ((60 <=? Math_round (previousInterval * easeFactor)) = true ->
          interval (calculateNextReview quality previousInterval easeFactor)
          = 60))
  /\ (forall s m e,
      Prim2SF (previousInterval * easeFactor) = S754_finite s m e ->
      (e < 0)%Z ->
      let n := round_half_up s m e in
      ((2 * n - 1) * 2 ^ (- e) <= 2 * cond_Zopp s (Zpos m)
       < (2 * n + 1) * 2 ^ (- e))%Z
      /\ Math_round (previousInterval * easeFactor)
         = if (n =? 0)%Z then (if s then neg_zero else zero) else of_Z n)
  /\ interval (calculateNextReview 5 1 2.6) = 3
  /\ interval (calculateNextReview 4 3 2.5) = 8
  /\ interval (calculateNextReview 3 2 1.3) = 3
  /\ interval (calculateNextReview 4 2 2.5) = 5
  /\ interval (calculateNextReview 4 4 1.6) = 6
  /\ interval (calculateNextReview 5 30 2.5) = 60
  /\ interval (calculateNextReview 5 0 2.5) = 1.
Proof.
  intros H. apply leb_ltb_false in H. success_branch H.
  split; [ | split; [ | split; [ | split]]].
  - intros ->. reflexivity.
  - intros H1. rewrite (eq_1_not_eq_0 _ H1), H1. reflexivity.
  - intros -> ->.
    destruct (Math_min_cap (Math_round (previousInterval * easeFactor)))
      as [Hlt Hge].
    repeat split; assumption.
  - intros s m e Hx He. now apply Math_round_nearest.
  - repeat split.
Qed.

Lemma successful_review_interval_witness :
  ((3 =? 0) = true -> interval (calculateNextReview 4 3 2.5) = 1)
  /\ ((3 =? 1) = true -> interval (calculateNextReview 4 3 2.5) = 3)
  /\ ((3 =? 0) = false -> (3 =? 1) = false ->
      interval (calculateNextReview 4 3 2.5)
      = Math_min (Math_round (3 * 2.5)) 60
      /\ ((Math_round (3 * 2.5) <? 60) = true ->
          interval (calculateNextReview 4 3 2.5) = Math_round (3 * 2.5))
      /\ ((60 <=? Math_round (3 * 2.5)) = true ->
          interval (calculateNextReview 4 3 2.5) = 60))
  /\ (forall s m e,
      Prim2SF (3 * 2.5) = S754_finite s m e ->
      (e < 0)%Z ->
      let n := round_half_up s m e in
      ((2 * n - 1) * 2 ^ (- e) <= 2 * cond_Zopp s (Zpos m)
       < (2 * n + 1) * 2 ^ (- e))%Z
      /\ Math_round (3 * 2.5)
         = if (n =? 0)%Z then (if s then neg_zero else zero) else of_Z n)
  /\ interval (calculateNextReview 5 1 2.6) = 3
  /\ interval (calculateNextReview 4 3 2.5) = 8
  /\ interval (calculateNextReview 3 2 1.3) = 3
  /\ interval (calculateNextReview 4 2 2.5) = 5
  /\ interval (calculateNextReview 4 4 1.6) = 6
  /\ interval (calculateNextReview 5 30 2.5) = 60
  /\ interval (calculateNextReview 5 0 2.5) = 1.
Proof.
  apply (successful_review_interval 4 3 2.5). reflexivity.
Defined.



(** C7, as the code has it. For a quality that is a number and a finite
    ease factor, the ease factor returned is at least 1.3, on the failure
    branch and on the success branch alike. *)
Theorem ease_factor_floor (quality previousInterval easeFactor : number) :
  is_nan quality = false ->
  is_finite easeFactor = true ->
  (1.3 <=? SpacedRepetition.easeFactor
             (calculateNextReview quality previousInterval easeFactor)) = true.
Proof.
  intros Hq He. pose proof (is_finite_not_nan _ He) as Hn.
  unfold calculateNextReview.
  destruct (quality <? 3); cbn [SpacedRepetition.easeFactor];
    apply Math_max_lower; try reflexivity.
  - apply sub_not_nan; auto.
  - apply add_not_nan; auto using ease_delta_not_nan.
Qed.

Lemma ease_factor_floor_witness :
  (1.3 <=? SpacedRepetition.easeFactor (calculateNextReview 3 30 1.3)) = true.
Proof.
  apply (ease_factor_floor 3 30 1.3); reflexivity.
Defined.

(** C7 as stated fails: [Math.max(1.3, NaN)] is NaN, so an ease factor of
    NaN, or a quality of NaN, comes back as an ease factor of NaN, which is
    not at least 1.3. *)
Lemma ease_factor_floor_fails_on_nan :
  SpacedRepetition.easeFactor (calculateNextReview 0 0 nan) = nan
  /\ (1.3 <=? SpacedRepetition.easeFactor (calculateNextReview 0 0 nan)) = false
  /\ (1.3 <=? SpacedRepetition.easeFactor (calculateNextReview nan 0 2.5)) = false.
Proof. repeat split. Qed.

(** C8, as the code has it. Whenever the product of the previous interval
    and the ease factor is a number, the interval returned is at most 60:
    1 on the failure branch, and capped by [Math.min] on the success
    branch. *)
Theorem interval_cap (quality previousInterval easeFactor : number) :
  is_nan (previousInterval * easeFactor) = false ->
  (interval (calculateNextReview quality previousInterval easeFactor) <=? 60)
  = true.
Proof.
  intros H. unfold calculateNextReview.
  destruct (quality <? 3); cbn [interval]; [reflexivity | ].
  apply Math_min_upper; [ | reflexivity].
  destruct (previousInterval =? 0); [reflexivity | ].
  destruct (previousInterval =? 1); [reflexivity | ].
  now rewrite Math_round_nan.
Qed.

Lemma interval_cap_witness :
  (interval (calculateNextReview 5 30 2.5) <=? 60) = true.
Proof.
  apply (interval_cap 5 30 2.5). reflexivity.
Defined.

(** The product of two finite numbers is a number, so the cap holds for
    every finite previous interval and ease factor. *)
Corollary interval_cap_finite (quality previousInterval easeFactor : number) :
  is_finite previousInterval = true ->
  is_finite easeFactor = true ->
  (interval (calculateNextReview quality previousInterval easeFactor) <=? 60)
  = true.
Proof.
  intros Hp He. unfold calculateNextReview.
  destruct (quality <? 3); cbn [interval]; [reflexivity | ].
  apply Math_min_upper; [ | reflexivity].
  destruct (previousInterval =? 0); [reflexivity | ].
  destruct (previousInterval =? 1); [reflexivity | ].
  rewrite Math_round_nan. now apply mul_finite_not_nan.
Qed.

(** C8 as stated fails: with an ease factor of NaN the interval returned
    after a success is [Math.min(NaN, 60)], that is NaN, which is not at
    most 60. *)
Lemma interval_cap_fails_on_nan :
  interval (calculateNextReview 5 2 nan) = nan
  /\ (interval (calculateNextReview 5 2 nan) <=? 60) = false.
Proof. repeat split. Qed.

(** C2, as the code has it. Nothing is validated: for every input, inside
    the documented domain or not, the call completes normally with the
    result the formula gives. A quality below 0 is a failed review like any
    other below 3; a quality above 5 is a successful one. *)
Theorem invalid_input_is_computed
    (quality previousInterval easeFactor : number) :
  call_calculateNextReview quality previousInterval easeFactor
  = Normal (calculateNextReview quality previousInterval easeFactor)
  /\ ((quality <? 0) = true ->
      calculateNextReview quality previousInterval easeFactor
      = {| interval := 1; easeFactor := Math_max 1.3 (easeFactor - 0.2) |})
  /\ ((5 <? quality) = true ->
      calculateNextReview quality previousInterval easeFactor
      = {| interval :=
             Math_min
               (if previousInterval =? 0 then 1
                else if previousInterval =? 1 then 3
                else Math_round (previousInterval * easeFactor)) 60;
           easeFactor :=
             Math_max 1.3
               (easeFactor
                + (0.1 - (5 - quality) * (0.08 + (5 - quality) * 0.02))) |}).
Proof.
  split; [reflexivity | split]; intros H.
  - apply lt_0_lt_3 in H. now failure_branch H.
  - apply lt_5_not_lt_3 in H. now failure_branch H.
Qed.

(** C2 as stated fails: a quality of -1 is not rejected; the call returns
    the failure result. So does a quality of 6, a previous interval of -2
    or an infinite ease factor return a result. *)
Lemma invalid_quality_is_not_rejected :
  (-1 <? 0) = true
  /\ call_calculateNextReview (-1) 0 2.5
     = Normal {| interval := 1; easeFactor := 2.3 |}
  /\ ~ (exists message, call_calculateNextReview (-1) 0 2.5 = Throw message)
  /\ call_calculateNextReview 6 (-2) infinity
     = Normal {| interval := neg_infinity; easeFactor := infinity |}.
Proof.
  repeat split. intros [message H]. discriminate H.
Qed.

End SchedulerProperties.

(** ** Properties of the rating map *)

Module RatingProperties.

Import JsNumber SpacedRepetition.
Local Open Scope float_scope.
Local Open Scope string_scope.

(** The four ratings have their fixed qualities. *)
Lemma getRatingQuality_known :
  getRatingQuality "forgot" = Num 0
  /\ getRatingQuality "struggled" = Num 2
  /\ getRatingQuality "good" = Num 4
  /\ getRatingQuality "perfect" = Num 5.
Proof. repeat split. Qed.

Lemma own_property_absent props key :
  ~ In key (map fst props) -> own_property props key = None.
Proof.
  induction props as [ | [k v] rest IH]; simpl; intros H; trivial.
  destruct (String.eqb_spec k key) as [-> | Hk].
  - exfalso. apply H. now left.
  - apply IH. intros Hin. apply H. now right.
Qed.

(** A key that names no property along the chain reads [undefined]. *)
Lemma Get_absent o key :
  ~ In key (property_names o) -> Get o key = Undefined.
Proof.
  induction o as [ | own proto IH]; simpl; intros H; trivial.
  rewrite own_property_absent.
  - apply IH. intros Hin. apply H, in_or_app. now right.
  - intros Hin. apply H, in_or_app. now left.
Qed.

(** A key that names no property of [qualityMap], own or inherited, takes
    the default 2. *)
Lemma getRatingQuality_default ratingKey :
  ~ In ratingKey (property_names qualityMap) ->
  getRatingQuality ratingKey = Num 2.
Proof.
  intros H. unfold getRatingQuality. now rewrite Get_absent.
Qed.

Example getRatingQuality_unknown : getRatingQuality "easy" = Num 2.
Proof. reflexivity. Qed.

(** C10 as stated fails: the default does not reach every key outside the
    map. A key that names a property of [Object.prototype] reads the
    inherited value, which is neither [null] nor [undefined], so [?? 2] lets
    it through and the function returns that value, not 2. *)
Theorem inherited_key_is_not_defaulted :
  getRatingQuality "toString" = Function "toString"
  /\ getRatingQuality "toString" <> Num 2
  /\ getRatingQuality "constructor" = Function "Object"
  /\ getRatingQuality "__proto__" = ObjectRef "Object.prototype".
Proof.
  repeat split. discriminate.
Qed.

(** C10, as the code has it. For a key that is not the name of a property
    inherited from [Object.prototype], as every key of the type [RatingKey]
    is, [getRatingQuality] returns the fixed quality of the four known keys
    (forgot 0, struggled 2, good 4, perfect 5) and the default 2 for any
    other key; it rejects none. *)
Theorem rating_quality_default ratingKey :
  ~ In ratingKey (property_names Object_prototype) ->
  getRatingQuality ratingKey
  = (if String.eqb "forgot" ratingKey then Num 0
     else if String.eqb "struggled" ratingKey then Num 2
     else if String.eqb "good" ratingKey then Num 4
     else if String.eqb "perfect" ratingKey then Num 5
     else Num 2)
  /\ property_names Object_prototype
     = [ "constructor"; "__defineGetter__"; "__defineSetter__";
         "hasOwnProperty"; "__lookupGetter__"; "__lookupSetter__";
         "isPrototypeOf"; "propertyIsEnumerable"; "toString"; "valueOf";
         "__proto__"; "toLocaleString" ]
  /\ getRatingQuality "forgot" = Num 0
  /\ getRatingQuality "struggled" = Num 2
  /\ getRatingQuality "good" = Num 4
  /\ getRatingQuality "perfect" = Num 5.
Proof.
  intros H. split; [ | repeat split].
  unfold getRatingQuality, qualityMap. cbn [Get own_property].
  destruct (String.eqb "forgot" ratingKey); trivial.
  destruct (String.eqb "struggled" ratingKey); trivial.
  destruct (String.eqb "good" ratingKey); trivial.
  destruct (String.eqb "perfect" ratingKey); trivial.
  now rewrite (Get_absent _ _ H).
Qed.

Lemma rating_quality_default_witness :
  getRatingQuality "easy"
  = (if String.eqb "forgot" "easy" then Num 0
     else if String.eqb "struggled" "easy" then Num 2
     else if String.eqb "good" "easy" then Num 4
     else if String.eqb "perfect" "easy" then Num 5
     else Num 2)
  /\ property_names Object_prototype
     = [ "constructor"; "__defineGetter__"; "__defineSetter__";
         "hasOwnProperty"; "__lookupGetter__"; "__lookupSetter__";
         "isPrototypeOf"; "propertyIsEnumerable"; "toString"; "valueOf";
         "__proto__"; "toLocaleString" ]
  /\ getRatingQuality "forgot" = Num 0
  /\ getRatingQuality "struggled" = Num 2
  /\ getRatingQuality "good" = Num 4
  /\ getRatingQuality "perfect" = Num 5.
Proof.
  apply (rating_quality_default "easy").
  simpl. intuition discriminate.
Defined.

End RatingProperties.

(** ** Properties of the priority *)

Module PriorityProperties.

Import Priority.
Local Open Scope Z_scope.

Lemma calculatePriority_never_reviewed now today paper stats :
  opt_field stats lastReviewed = None ->
  calculatePriority now today paper stats
  = Points (50 + (if lowMastery stats then 20 else 0)
               + (if isDue today stats then 25 else 0)).
Proof.
  intros H. unfold calculatePriority. rewrite H.
  now destruct (lowMastery stats), (isDue today stats).
Qed.

Lemma calculatePriority_reviewed now today paper stats t :
  opt_field stats lastReviewed = Some (IsoDate t) ->
  calculatePriority now today paper stats
  = Points (Z.min ((now - t) / day * 2) 30
            + (if lowMastery stats then 20 else 0)
            + (if isDue today stats then 25 else 0)).
Proof.
  intros H. unfold calculatePriority. rewrite H.
  unfold daysSince, getTime, times, Math_min, day.
  destruct (lowMastery stats), (isDue today stats); unfold plus;
    f_equal; lia.
Qed.

(** C1, as the code has it. For a record that was never reviewed the
    priority is 50, plus 20 for a mastery score that is defined and below
    50, plus 25 for a stored due date that is not after now; so it is
    exactly 50 plus the mastery bonus when the record stores no due date. *)
Theorem never_reviewed_priority now today paper stats :
  opt_field stats lastReviewed = None ->
  calculatePriority now today paper stats
  = Points (50 + (if lowMastery stats then 20 else 0)
               + (if isDue today stats then 25 else 0))
  /\ (opt_field stats dueDate = None ->
      calculatePriority now today paper stats
      = Points (50 + (if lowMastery stats then 20 else 0))).
Proof.
  intros H. rewrite (calculatePriority_never_reviewed _ _ _ _ H).
  split; trivial.
  intros Hd. unfold isDue. rewrite Hd. f_equal. lia.
Qed.

Lemma never_reviewed_priority_witness :
  calculatePriority 1767225600000 1767225600000
    {| id := "p1"; title := "Attention" |} None
  = Points (50 + (if lowMastery None then 20 else 0)
               + (if isDue 1767225600000 None then 25 else 0))
  /\ (opt_field None dueDate = None ->
      calculatePriority 1767225600000 1767225600000
        {| id := "p1"; title := "Attention" |} None
      = Points (50 + (if lowMastery None then 20 else 0))).
Proof.
  apply (never_reviewed_priority 1767225600000 1767225600000
           {| id := "p1"; title := "Attention" |} None).
  reflexivity.
Defined.

(** C1 as stated fails: a record with no [lastReviewed] but a due date of
    yesterday, and a mastery score of 80, scores 50 + 25 = 75, not 50. *)
Lemma never_reviewed_but_due :
  let stats :=
    {| lastReviewed := None; masteryScore := Some 80%float;
       reviewCount := 0%float; easeFactor := 2.5%float; interval := 0%float;
       dueDate := Some (IsoDate (1767225600000 - day)) |} in
  lowMastery (Some stats) = false
  /\ calculatePriority 1767225600000 1767225600000
       {| id := "p1"; title := "Attention" |} (Some stats)
     = Points 75
  /\ calculatePriority 1767225600000 1767225600000
       {| id := "p1"; title := "Attention" |} (Some stats)
     <> Points (50 + (if lowMastery (Some stats) then 20 else 0)).
Proof.
  repeat split. discriminate.
Qed.

(** C3, as the code has it. When the last review, if there is one, is a
    valid date not later than now, the priority is non-negative. *)
Theorem priority_nonnegative now today paper stats :
  match opt_field stats lastReviewed with
  | Some (IsoDate t) => t <= now
  | Some Unparsable => False
  | None => True
  end ->
  is_nonnegative (calculatePriority now today paper stats) = true.
Proof.
  destruct (opt_field stats lastReviewed) as [[t | ] | ] eqn:Hl; intros H.
  - rewrite (calculatePriority_reviewed _ _ _ _ _ Hl). simpl.
    apply Z.leb_le.
    assert (0 <= (now - t) / day) by (apply Z.div_pos; unfold day; lia).
    destruct (lowMastery stats), (isDue today stats); lia.
  - contradiction.
  - rewrite (calculatePriority_never_reviewed _ _ _ _ Hl). simpl.
    apply Z.leb_le.
    destruct (lowMastery stats), (isDue today stats); lia.
Qed.

Lemma priority_nonnegative_witness :
  is_nonnegative
    (calculatePriority 1767225600000 1767225600000
       {| id := "p1"; title := "Attention" |}
       (Some {| lastReviewed := Some (IsoDate (1767225600000 - 3 * day));
                masteryScore := Some 80%float;
                reviewCount := 1%float; easeFactor := 2.5%float;
                interval := 1%float; dueDate := None |}))
  = true.
Proof.
  apply (priority_nonnegative 1767225600000 1767225600000).
  simpl. unfold day. lia.
Defined.

(** C3 as stated fails: a last review ten days in the future gives
    [daysSince = -10] and a priority of -20; a [lastReviewed] that does not
    parse gives NaN. *)
Lemma future_review_is_negative :
  let paper := {| id := "p1"; title := "Attention" |} in
  let stats d :=
    {| lastReviewed := Some d; masteryScore := Some 80%float;
       reviewCount := 1%float; easeFactor := 2.5%float; interval := 1%float;
       dueDate := None |} in
  daysSince 1767225600000 (IsoDate (1767225600000 + 10 * day)) = Points (-10)
  /\ calculatePriority 1767225600000 1767225600000 paper
       (Some (stats (IsoDate (1767225600000 + 10 * day))))
     = Points (-20)
  /\ is_nonnegative
       (calculatePriority 1767225600000 1767225600000 paper
          (Some (stats (IsoDate (1767225600000 + 10 * day)))))
     = false
  /\ calculatePriority 1767225600000 1767225600000 paper
       (Some (stats Unparsable))
     = NaN.
Proof.
  repeat split.
Qed.

(** C9. Fifteen days or more after the last review the time term is
    exactly 30, so the priority is 30 plus the mastery and due bonuses; a
    record reviewed 20 days ago, with a mastery score of 40 and a due date
    of yesterday, scores 30 + 20 + 25 = 75. *)
Theorem time_term_caps_at_30 now today paper stats d n :
  opt_field stats lastReviewed = Some d ->
  daysSince now d = Points n ->
  15 <= n ->
  Math_min (times (daysSince now d) (Points 2)) (Points 30) = Points 30
  /\ calculatePriority now today paper stats
     = Points (30 + (if lowMastery stats then 20 else 0)
                  + (if isDue today stats then 25 else 0))
  /\ calculatePriority now today paper
       (Some {| lastReviewed := Some (IsoDate (now - 20 * day));
                masteryScore := Some 40%float;
                reviewCount := 3%float; easeFactor := 2.5%float;
                interval := 8%float;
                dueDate := Some (IsoDate (today - day)) |})
     = Points 75.
Proof.
  intros Hl Hd Hn.
  assert (Math_min (times (daysSince now d) (Points 2)) (Points 30)
          = Points 30) as Hterm
    by (rewrite Hd; simpl; f_equal; lia).
  split; [exact Hterm | split].
  - unfold calculatePriority. rewrite Hl, Hterm.
    now destruct (lowMastery stats), (isDue today stats).
  - erewrite calculatePriority_reviewed by reflexivity.
    replace (now - (now - 20 * day)) with (20 * day) by lia.
    unfold isDue, date_le; cbn [opt_field dueDate getTime].
    replace (today - day <=? today) with true
      by (symmetry; apply Z.leb_le; unfold day; lia).
    reflexivity.
Qed.

Lemma time_term_caps_at_30_witness :
  let stats :=
    Some {| lastReviewed := Some (IsoDate (1767225600000 - 15 * day));
            masteryScore := Some 90%float;
            reviewCount := 3%float; easeFactor := 2.5%float;
            interval := 8%float; dueDate := None |} in
  Math_min
    (times (daysSince 1767225600000 (IsoDate (1767225600000 - 15 * day)))
           (Points 2))
    (Points 30) = Points 30
  /\ calculatePriority 1767225600000 1767225600000
       {| id := "p1"; title := "Attention" |} stats
     = Points (30 + (if lowMastery stats then 20 else 0)
                  + (if isDue 1767225600000 stats then 25 else 0))
  /\ calculatePriority 1767225600000 1767225600000
       {| id := "p1"; title := "Attention" |}
       (Some {| lastReviewed := Some (IsoDate (1767225600000 - 20 * day));
                masteryScore := Some 40%float;
                reviewCount := 3%float; easeFactor := 2.5%float;
                interval := 8%float;
                dueDate := Some (IsoDate (1767225600000 - day)) |})
     = Points 75.
Proof.
  apply (time_term_caps_at_30 1767225600000 1767225600000
           {| id := "p1"; title := "Attention" |} _
           (IsoDate (1767225600000 - 15 * day)) 15).
  - reflexivity.
  - reflexivity.
  - lia.
Defined.

End PriorityProperties.

(** ** Properties of the label, the badge and the filter *)

Module LabelProperties.

Import JsNumber JsNumberFacts Priority PriorityUtils PriorityProperties.
Local Open Scope Z_scope.

Lemma calculatePriority_unparsable now today paper stats :
  opt_field stats lastReviewed = Some Unparsable ->
  calculatePriority now today paper stats = NaN.
Proof.
  intros H. unfold calculatePriority. rewrite H. simpl.
  now destruct (lowMastery stats), (isDue today stats).
Qed.

(** X1. A paper that was never reviewed is labelled Soon when no bonus
    applies and Due when the mastery or the due-date bonus does; never OK. *)
Theorem never_reviewed_label now today paper stats :
  opt_field stats lastReviewed = None ->
  label (getPriorityLabel (calculatePriority now today paper stats))
  = if lowMastery stats || isDue today stats then "Due"%string
    else "Soon"%string.
Proof.
  intros H. rewrite (calculatePriority_never_reviewed _ _ _ _ H).
  now destruct (lowMastery stats), (isDue today stats).
Qed.

Lemma never_reviewed_label_witness :
  label (getPriorityLabel
           (calculatePriority 1767225600000 1767225600000
              {| id := "p1"; title := "Attention" |} None))
  = if lowMastery None || isDue 1767225600000 None then "Due"%string
    else "Soon"%string.
Proof.
  apply (never_reviewed_label 1767225600000 1767225600000
           {| id := "p1"; title := "Attention" |} None).
  reflexivity.
Defined.

(** X2. A reviewed paper is labelled Due exactly when its mastery is low,
    its due date has passed and the last review is at least 8 days old: any
    two of the three terms stay at 60 or below. *)
Theorem reviewed_label_due now today paper stats t :
  opt_field stats lastReviewed = Some (IsoDate t) ->
  label (getPriorityLabel (calculatePriority now today paper stats))
  = "Due"%string
  <-> lowMastery stats = true /\ isDue today stats = true
      /\ 8 <= (now - t) / day.
Proof.
  intros H. rewrite (calculatePriority_reviewed _ _ _ _ _ H).
  unfold getPriorityLabel, gtb.
  destruct (lowMastery stats), (isDue today stats);
    repeat match goal with
           | |- context [?a <? ?b] => destruct (Z.ltb_spec a b)
           end;
    cbn [label]; split; intros; try discriminate; intuition (try lia);
    discriminate.
Qed.

Lemma reviewed_label_due_witness :
  let stats :=
    Some {| lastReviewed := Some (IsoDate (1767225600000 - 20 * day));
            masteryScore := Some 40%float;
            reviewCount := 3%float; easeFactor := 2.5%float;
            interval := 8%float;
            dueDate := Some (IsoDate (1767225600000 - day)) |} in
  label (getPriorityLabel
           (calculatePriority 1767225600000 1767225600000
              {| id := "p1"; title := "Attention" |} stats))
  = "Due"%string
  <-> lowMastery stats = true /\ isDue 1767225600000 stats = true
      /\ 8 <= (1767225600000 - (1767225600000 - 20 * day)) / day.
Proof.
  apply (reviewed_label_due 1767225600000 1767225600000
           {| id := "p1"; title := "Attention" |}).
  reflexivity.
Defined.

(** X3. Time alone never raises the label: a reviewed paper with neither the
    mastery bonus nor the due-date bonus is labelled OK however long ago the
    review was, and also when the review date does not parse. *)
Theorem reviewed_without_bonus_is_ok now today paper stats d :
  opt_field stats lastReviewed = Some d ->
  lowMastery stats = false ->
  isDue today stats = false ->
  label (getPriorityLabel (calculatePriority now today paper stats))
  = "OK"%string.
Proof.
  intros H Hl Hd. destruct d as [t | ].
  - rewrite (calculatePriority_reviewed _ _ _ _ _ H), Hl, Hd.
    unfold getPriorityLabel, gtb.
    repeat match goal with
           | |- context [?a <? ?b] => destruct (Z.ltb_spec a b)
           end; trivial; lia.
  - now rewrite (calculatePriority_unparsable _ _ _ _ H).
Qed.

Lemma reviewed_without_bonus_is_ok_witness :
  label (getPriorityLabel
           (calculatePriority 1767225600000 1767225600000
              {| id := "p1"; title := "Attention" |}
              (Some {| lastReviewed :=
                         Some (IsoDate (1767225600000 - 400 * day));
                       masteryScore := Some 80%float;
                       reviewCount := 3%float; easeFactor := 2.5%float;
                       interval := 60%float;
                       dueDate := None |})))
  = "OK"%string.
Proof.
  apply (reviewed_without_bonus_is_ok 1767225600000 1767225600000
           {| id := "p1"; title := "Attention" |} _
           (IsoDate (1767225600000 - 400 * day)));
    reflexivity.
Defined.

End LabelProperties.

Module BadgeProperties.

Import JsNumber JsNumberFacts Priority PriorityUtils PaperCard App.
Import PriorityProperties LabelProperties.
Local Open Scope Z_scope.

(** The badge and the filter count an [undefined] or NaN mastery score as
    0; [calculatePriority] gives such a score no bonus. A mastery the badge
    does not find low earns no bonus either. *)
Lemma not_weak_no_bonus stats :
  (or_zero (opt_field stats masteryScore) <? 50)%float = false ->
  lowMastery stats = false.
Proof.
  unfold lowMastery, or_zero.
  destruct (opt_field stats masteryScore) as [m | ]; [ | discriminate].
  destruct (is_nan m || (m =? 0)%float); [discriminate | trivial].
Qed.

(** X4. A reviewed paper whose mastery is 50 or more is never badged Due or
    Weak: it is Soon once it is due and the last review is at least 8 days
    old, and Good otherwise, however overdue it is. *)
Theorem mastered_paper_badge now today paper stats t :
  opt_field stats lastReviewed = Some (IsoDate t) ->
  (or_zero (opt_field stats masteryScore) <? 50)%float = false ->
  PaperCard.label
    (getStatusBadge stats (calculatePriority now today paper stats))
  = if isDue today stats && (8 <=? (now - t) / day) then "Soon"%string
    else "Good"%string.
Proof.
  intros H Hm. unfold getStatusBadge. rewrite H, Hm.
  rewrite (calculatePriority_reviewed _ _ _ _ _ H), (not_weak_no_bonus _ Hm).
  unfold gtb.
  destruct (isDue today stats); cbn [andb];
    repeat match goal with
           | |- context [?a <? ?b] => destruct (Z.ltb_spec a b)
           | |- context [?a <=? ?b] => destruct (Z.leb_spec a b)
           end; trivial; lia.
Qed.

Lemma mastered_paper_badge_witness :
  let stats :=
    Some {| lastReviewed := Some (IsoDate (1767225600000 - 90 * day));
            masteryScore := Some 80%float;
            reviewCount := 3%float; easeFactor := 2.5%float;
            interval := 8%float;
            dueDate := Some (IsoDate (1767225600000 - 82 * day)) |} in
  PaperCard.label
    (getStatusBadge stats
       (calculatePriority 1767225600000 1767225600000
          {| id := "p1"; title := "Attention" |} stats))
  = if isDue 1767225600000 stats
       && (8 <=? (1767225600000 - (1767225600000 - 90 * day)) / day)
    then "Soon"%string else "Good"%string.
Proof.
  apply (mastered_paper_badge 1767225600000 1767225600000
           {| id := "p1"; title := "Attention" |}); reflexivity.
Defined.

(** X5. The needs-review filter hides exactly the papers badged Good, for
    every record and every clock: the filter tests [priority >= 40] where
    the badge tests [priority > 40], and a priority of exactly 40 does not
    occur for a paper that is neither new nor weak. *)
Theorem filter_hides_good_papers now today paper stats :
  needsReview now today paper stats
  = negb (String.eqb
            (PaperCard.label
               (getStatusBadge stats
                  (calculatePriority now today paper stats)))
            "Good").
Proof.
  unfold needsReview, getStatusBadge.
  destruct (opt_field stats lastReviewed) as [d | ] eqn:H; [ | reflexivity].
  cbn [orb].
  destruct (or_zero (opt_field stats masteryScore) <? 50)%float eqn:Hm.
  - cbn [orb]. now destruct (gtb _ _).
  - cbn [orb]. destruct d as [t | ].
    + rewrite (calculatePriority_reviewed _ _ _ _ _ H),
        (not_weak_no_bonus _ Hm).
      unfold gtb, geb.
      destruct (isDue today stats);
        repeat match goal with
               | |- context [?a <? ?b] => destruct (Z.ltb_spec a b)
               | |- context [?a <=? ?b] => destruct (Z.leb_spec a b)
               end; trivial; lia.
    + now rewrite (calculatePriority_unparsable _ _ _ _ H).
Qed.

(** X6. A review date that does not parse makes the priority NaN, and every
    comparison with it false: the paper is labelled OK whatever its bonuses,
    and the filter shows it only for a low mastery. *)
Theorem unparsable_date_hides_paper now today paper stats :
  opt_field stats lastReviewed = Some Unparsable ->
  calculatePriority now today paper stats = NaN
  /\ PriorityUtils.label
       (getPriorityLabel (calculatePriority now today paper stats))
     = "OK"%string
  /\ needsReview now today paper stats
     = (or_zero (opt_field stats masteryScore) <? 50)%float.
Proof.
  intros H. unfold needsReview.
  rewrite (calculatePriority_unparsable _ _ _ _ H), H.
  repeat split. cbn. now rewrite orb_false_r.
Qed.

Lemma unparsable_date_hides_paper_witness :
  let stats :=
    Some {| lastReviewed := Some Unparsable;
            masteryScore := Some 80%float;
            reviewCount := 3%float; easeFactor := 2.5%float;
            interval := 8%float;
            dueDate := Some (IsoDate (1767225600000 - 82 * day)) |} in
  calculatePriority 1767225600000 1767225600000
    {| id := "p1"; title := "Attention" |} stats = NaN
  /\ PriorityUtils.label
       (getPriorityLabel
          (calculatePriority 1767225600000 1767225600000
             {| id := "p1"; title := "Attention" |} stats))
     = "OK"%string
  /\ needsReview 1767225600000 1767225600000
       {| id := "p1"; title := "Attention" |} stats
     = (or_zero (opt_field stats masteryScore) <? 50)%float.
Proof.
  apply (unparsable_date_hides_paper 1767225600000 1767225600000
           {| id := "p1"; title := "Attention" |}); reflexivity.
Defined.

End BadgeProperties.

(** ** Properties of [sortByPriority] *)

Module SortProperties.

Import Priority PriorityUtils.
Local Open Scope Z_scope.

Section Sort.

Context {A : Type}.
Variable compare : A -> A -> score.

Lemma insert_sorted_permutation x l :
  Permutation (x :: l) (insert_sorted compare x l).
Proof.
  induction l as [ | y rest IH]; simpl; trivial.
  destruct (gtb (compare x y) (Points 0)); trivial.
  rewrite perm_swap. now apply perm_skip.
Qed.

Lemma sort_permutation l : Permutation l (sort compare l).
Proof.
  induction l as [ | x rest IH]; simpl; trivial.
  rewrite <- insert_sorted_permutation. now apply perm_skip.
Qed.

End Sort.

Section ByKey.

(** Sorting highest key first: the compare function of [sortByPriority],
    for any key. *)
Context {A : Type}.
Variable key : A -> score.

Let compare (a b : A) : score := minus (key b) (key a).

(** [a] may stand before [b]. *)
Let before (a b : A) : Prop := geb (key a) (key b) = true.

(** The key of [a] is the number [k]. *)
Definition has_key (k : Z) (a : A) : bool :=
  match key a with
  | Points n => n =? k
  | NaN => false
  end.

Lemma insert_sorted_sorted x l :
  key x <> NaN ->
  Forall (fun a => key a <> NaN) l ->
  StronglySorted before l ->
  StronglySorted before (insert_sorted compare x l).
Proof.
  intros Hx Hl Hs.
  induction Hs as [ | y rest Hs IH Hy]; simpl.
  - repeat constructor.
  - apply Forall_cons_iff in Hl as [Hky Hl].
    unfold before in *. unfold compare at 1.
    destruct (key x) as [ | kx] eqn:Ex; [contradiction | ].
    destruct (key y) as [ | ky] eqn:Ey; [contradiction | ].
    cbn [minus gtb]. destruct (Z.ltb_spec 0 (ky - kx)).
    + constructor; [now apply IH | ].
      apply (Permutation_Forall (insert_sorted_permutation compare x rest)).
      constructor.
      * rewrite Ex, Ey. cbn. apply Z.leb_le. lia.
      * now rewrite Ey.
    + constructor; [constructor; trivial; now rewrite Ey | ].
      constructor.
      * rewrite Ex, Ey. cbn. apply Z.leb_le. lia.
      * rewrite Forall_forall in Hy, Hl |- *. intros z Hz.
        specialize (Hy z Hz). specialize (Hl z Hz).
        rewrite Ex.
        destruct (key z) as [ | kz]; [contradiction | ].
        cbn in *. apply Z.leb_le. apply Z.leb_le in Hy. lia.
Qed.

Lemma sort_sorted l :
  Forall (fun a => key a <> NaN) l ->
  StronglySorted before (sort compare l).
Proof.
  induction l as [ | x rest IH]; intros Hl; simpl.
  - constructor.
  - apply Forall_cons_iff in Hl as [Hx Hl].
    apply insert_sorted_sorted; auto.
    apply (Permutation_Forall (sort_permutation compare rest) Hl).
Qed.

Lemma insert_sorted_filter k x l :
  filter (has_key k) (insert_sorted compare x l)
  = filter (has_key k) (x :: l).
Proof.
  induction l as [ | y rest IH]; trivial.
  cbn [insert_sorted]. unfold compare at 1.
  destruct (gtb (minus (key y) (key x)) (Points 0)) eqn:Hgt; trivial.
  assert (has_key k x = true -> has_key k y = false) as Hne.
  { unfold has_key.
    destruct (key x) as [ | kx]; [discriminate | ].
    destruct (key y) as [ | ky]; [discriminate | ].
    cbn in Hgt. apply Z.ltb_lt in Hgt.
    destruct (Z.eqb_spec kx k), (Z.eqb_spec ky k); trivial; try discriminate.
    lia. }
  cbn [filter] in *. rewrite IH.
  destruct (has_key k x), (has_key k y); trivial.
  now specialize (Hne eq_refl).
Qed.

Lemma sort_filter k l :
  filter (has_key k) (sort compare l) = filter (has_key k) l.
Proof.
  induction l as [ | x rest IH]; trivial.
  cbn [sort fold_right]. rewrite insert_sorted_filter.
  cbn [filter]. fold (sort compare rest). now rewrite IH.
Qed.

End ByKey.

(** [sortByPriority] returns the papers it was given, each as often as it
    occurs, whatever their priorities. *)
Lemma sortByPriority_permutation now today papers paperStats :
  Permutation papers (sortByPriority now today papers paperStats).
Proof. apply sort_permutation. Qed.

(** X7. When every priority is a number, [sortByPriority] returns the papers
    it was given, highest priority first: each paper's priority is at least
    that of every paper after it. *)
Theorem sortByPriority_descending now today papers paperStats :
  Forall (fun a => priorityOf now today paperStats a <> NaN) papers ->
  Permutation papers (sortByPriority now today papers paperStats)
  /\ StronglySorted
       (fun a b =>
          geb (priorityOf now today paperStats a)
              (priorityOf now today paperStats b) = true)
       (sortByPriority now today papers paperStats).
Proof.
  intros H. split; [apply sort_permutation | ].
  apply (sort_sorted (priorityOf now today paperStats) papers H).
Qed.

(** X8. When every priority is a number, the sort is stable: the papers of
    any one priority keep the order they had. (With a priority that is NaN
    the compare function is inconsistent, and the order is the engine's.) *)
Theorem sortByPriority_stable now today papers paperStats k :
  Forall (fun a => priorityOf now today paperStats a <> NaN) papers ->
  filter (has_key (priorityOf now today paperStats) k)
    (sortByPriority now today papers paperStats)
  = filter (has_key (priorityOf now today paperStats) k) papers.
Proof.
  intros _. apply (sort_filter (priorityOf now today paperStats)).
Qed.

Lemma sortByPriority_descending_witness :
  let never := {| id := "a"; title := "Never reviewed" |} in
  let fresh := {| id := "b"; title := "Reviewed three days ago" |} in
  let stale := {| id := "c"; title := "Weak and overdue" |} in
  let paperStats :=
    [ ("b"%string,
       {| lastReviewed := Some (IsoDate (1767225600000 - 3 * day));
          masteryScore := Some 80%float; reviewCount := 1%float;
          easeFactor := 2.5%float; interval := 8%float;
          dueDate := Some (IsoDate (1767225600000 + 5 * day)) |});
      ("c"%string,
       {| lastReviewed := Some (IsoDate (1767225600000 - 20 * day));
          masteryScore := Some 40%float; reviewCount := 2%float;
          easeFactor := 2.3%float; interval := 1%float;
          dueDate := Some (IsoDate (1767225600000 - 19 * day)) |}) ] in
  Permutation [fresh; never; stale]
    (sortByPriority 1767225600000 1767225600000 [fresh; never; stale]
       paperStats)
  /\ StronglySorted
       (fun a b =>
          geb (priorityOf 1767225600000 1767225600000 paperStats a)
              (priorityOf 1767225600000 1767225600000 paperStats b) = true)
       (sortByPriority 1767225600000 1767225600000 [fresh; never; stale]
          paperStats).
Proof.
  apply (sortByPriority_descending 1767225600000 1767225600000).
  repeat constructor; discriminate.
Defined.

Example sortByPriority_sample :
  let never := {| id := "a"; title := "Never reviewed" |} in
  let fresh := {| id := "b"; title := "Reviewed three days ago" |} in
  let stale := {| id := "c"; title := "Weak and overdue" |} in
  let paperStats :=
    [ ("b"%string,
       {| lastReviewed := Some (IsoDate (1767225600000 - 3 * day));
          masteryScore := Some 80%float; reviewCount := 1%float;
          easeFactor := 2.5%float; interval := 8%float;
          dueDate := Some (IsoDate (1767225600000 + 5 * day)) |});
      ("c"%string,
       {| lastReviewed := Some (IsoDate (1767225600000 - 20 * day));
          masteryScore := Some 40%float; reviewCount := 2%float;
          easeFactor := 2.3%float; interval := 1%float;
          dueDate := Some (IsoDate (1767225600000 - 19 * day)) |}) ] in
  sortByPriority 1767225600000 1767225600000 [fresh; never; stale] paperStats
  = [stale; never; fresh].
Proof. reflexivity. Qed.

Lemma sortByPriority_stable_witness :
  let first := {| id := "a"; title := "First new paper" |} in
  let second := {| id := "b"; title := "Second new paper" |} in
  filter (has_key (priorityOf 1767225600000 1767225600000 []) 50)
    (sortByPriority 1767225600000 1767225600000 [first; second] [])
  = filter (has_key (priorityOf 1767225600000 1767225600000 []) 50)
      [first; second].
Proof.
  apply (sortByPriority_stable 1767225600000 1767225600000).
  repeat constructor; discriminate.
Defined.

End SortProperties.

(** ** Properties of the bookkeeping of a session *)

Module SessionProperties.

Import JsNumber JsNumberFacts Priority App.
Import SpacedRepetition.
Local Open Scope float_scope.

(** The overall scores a session can have: the integers from 0 to 100. *)
Definition scores : list Z := map Z.of_nat (seq 0 101).

Lemma in_scores n : (0 <= n <= 100)%Z -> In n scores.
Proof.
  intros H. unfold scores.
  rewrite <- (Z2Nat.id n) by lia.
  apply in_map, in_seq. lia.
Qed.

(** A property checked on every score holds of each. *)
Lemma for_all_scores (P : Z -> bool) :
  forallb P scores = true ->
  forall n, (0 <= n <= 100)%Z -> P n = true.
Proof.
  intros H n Hn. rewrite forallb_forall in H. now apply H, in_scores.
Qed.

Lemma session_quality_value n :
  (0 <= n <= 100)%Z ->
  sessionQuality (of_Z n) = of_Z ((n + 10) / 20).
Proof.
  intros H. apply FloatAxioms.Leibniz.eqb_spec.
  revert n H.
  apply (for_all_scores
           (fun n => Leibniz.eqb (sessionQuality (of_Z n))
                                 (of_Z ((n + 10) / 20)))).
  vm_compute. reflexivity.
Qed.

Lemma session_quality_fails n :
  (0 <= n <= 100)%Z ->
  (sessionQuality (of_Z n) <? 3) = (n <? 50)%Z.
Proof.
  intros H. apply Bool.eqb_prop. revert n H.
  apply (for_all_scores
           (fun n => Bool.eqb (sessionQuality (of_Z n) <? 3) (n <? 50)%Z)).
  vm_compute. reflexivity.
Qed.

(** X9. The quality of a session: an overall score of [n] out of 100 gives
    the quality [(n + 10) / 20], that is 0 below 10, 1 below 30, 2 below 50,
    3 below 70, 4 below 90 and 5 from 90 on; so the quality stays within 0
    to 5, and it is below 3 exactly for a score below 50. *)
Theorem session_quality_bands n :
  (0 <= n <= 100)%Z ->
  sessionQuality (of_Z n) = of_Z ((n + 10) / 20)
  /\ (0 <= (n + 10) / 20 <= 5)%Z
  /\ (sessionQuality (of_Z n) <? 3) = (n <? 50)%Z.
Proof.
  intros H. split; [now apply session_quality_value | split].
  - pose proof (Z.div_mod (n + 10) 20 ltac:(lia)).
    pose proof (Z.mod_pos_bound (n + 10) 20 ltac:(lia)). lia.
  - now apply session_quality_fails.
Qed.

Lemma session_quality_bands_witness :
  sessionQuality (of_Z 70) = of_Z ((70 + 10) / 20)
  /\ (0 <= (70 + 10) / 20 <= 5)%Z
  /\ (sessionQuality (of_Z 70) <? 3) = (70 <? 50)%Z.
Proof.
  apply (session_quality_bands 70). lia.
Defined.

(** X10. The pass mark of a session is 50: below it the review counts as
    failed, the interval goes back to 1 and the ease factor loses 0.2,
    whatever the record held; from 50 on the interval follows the rule of a
    successful review. *)
Theorem session_pass_mark stats n :
  (0 <= n <= 100)%Z ->
  ((n < 50)%Z ->
   sessionReview stats (of_Z n)
   = {| interval := 1;
        easeFactor :=
          Math_max 1.3 (Priority.easeFactor (currentStats stats) - 0.2) |})
  /\ ((50 <= n)%Z ->
      interval (sessionReview stats (of_Z n))
      = JsNumber.Math_min
          (if Priority.interval (currentStats stats) =? 0 then 1
           else if Priority.interval (currentStats stats) =? 1 then 3
           else Math_round (Priority.interval (currentStats stats)
                            * Priority.easeFactor (currentStats stats)))
          60).
Proof.
  intros H. pose proof (session_quality_fails n H) as Hq.
  unfold sessionReview, calculateNextReview.
  split; intros Hn; rewrite Hq.
  - now replace (n <? 50)%Z with true by (symmetry; apply Z.ltb_lt; lia).
  - now replace (n <? 50)%Z with false by (symmetry; apply Z.ltb_ge; lia).
Qed.

Lemma session_pass_mark_witness :
  let stats :=
    Some {| lastReviewed := Some (IsoDate 1767225600000);
            masteryScore := Some 80; reviewCount := 3;
            Priority.easeFactor := 2.5; Priority.interval := 8;
            dueDate := Some (IsoDate 1767916800000) |} in
  ((49 < 50)%Z ->
   sessionReview stats (of_Z 49)
   = {| interval := 1;
        easeFactor :=
          Math_max 1.3 (Priority.easeFactor (currentStats stats) - 0.2) |})
  /\ ((50 <= 49)%Z ->
      interval (sessionReview stats (of_Z 49))
      = JsNumber.Math_min
          (if Priority.interval (currentStats stats) =? 0 then 1
           else if Priority.interval (currentStats stats) =? 1 then 3
           else Math_round (Priority.interval (currentStats stats)
                            * Priority.easeFactor (currentStats stats)))
          60).
Proof.
  apply (session_pass_mark _ 49). lia.
Defined.

(** X11. A record whose interval is 0, as that of a paper without a record,
    is always scheduled one day ahead, whatever the score of the session and
    the ease factor. *)
Theorem first_session_interval stats overallScore :
  (Priority.interval (currentStats stats) =? 0) = true ->
  interval (sessionReview stats overallScore) = 1.
Proof.
  intros H. unfold sessionReview, calculateNextReview. rewrite H.
  now destruct (sessionQuality overallScore <? 3).
Qed.

Lemma first_session_interval_witness :
  interval (sessionReview None 87) = 1.
Proof.
  apply (first_session_interval None 87). reflexivity.
Defined.

(** X12. The ease factor after a session, by the band of its score: it loses
    0.2 below 50, the adjustment of quality 3 (about -0.14) from 50 to 69,
    nothing from 70 to 89, and gains 0.1 from 90 on; always with the floor
    of 1.3. *)
Theorem session_ease_bands stats n :
  (0 <= n <= 100)%Z ->
  let ease := Priority.easeFactor (currentStats stats) in
  easeFactor (sessionReview stats (of_Z n))
  = Math_max 1.3
      (if (n <? 50)%Z then ease - 0.2
       else if (n <? 70)%Z then ease + (0.1 - 2 * (0.08 + 2 * 0.02))
       else if (n <? 90)%Z then ease
       else ease + 0.1).
Proof.
  intros H. cbv zeta. unfold sessionReview.
  rewrite (session_quality_value n H).
  pose proof (Z.div_mod (n + 10) 20 ltac:(lia)) as Hdiv.
  pose proof (Z.mod_pos_bound (n + 10) 20 ltac:(lia)) as Hmod.
  destruct (Z.ltb_spec n 50);
    [ | destruct (Z.ltb_spec n 70); [ | destruct (Z.ltb_spec n 90)]].
  - assert ((n + 10) / 20 = 0 \/ (n + 10) / 20 = 1 \/ (n + 10) / 20 = 2)%Z
      as [-> | [-> | ->]] by lia; reflexivity.
  - replace ((n + 10) / 20)%Z with 3%Z by lia. reflexivity.
  - replace ((n + 10) / 20)%Z with 4%Z by lia.
    change (easeFactor
              (calculateNextReview (of_Z 4)
                 (Priority.interval (currentStats stats))
                 (Priority.easeFactor (currentStats stats))))
      with (Math_max 1.3 (Priority.easeFactor (currentStats stats) + 0)).
    now apply Math_max_add_zero.
  - replace ((n + 10) / 20)%Z with 5%Z by lia. reflexivity.
Qed.

Lemma session_ease_bands_witness :
  let stats :=
    Some {| lastReviewed := Some (IsoDate 1767225600000);
            masteryScore := Some 80; reviewCount := 3;
            Priority.easeFactor := 2.5; Priority.interval := 8;
            dueDate := Some (IsoDate 1767916800000) |} in
  let ease := Priority.easeFactor (currentStats stats) in
  easeFactor (sessionReview stats (of_Z 65))
  = Math_max 1.3
      (if (65 <? 50)%Z then ease - 0.2
       else if (65 <? 70)%Z then ease + (0.1 - 2 * (0.08 + 2 * 0.02))
       else if (65 <? 90)%Z then ease
       else ease + 0.1).
Proof.
  apply (session_ease_bands _ 65). lia.
Defined.

(** X13. After the first session of a paper without a record the mastery
    score is below 50 whatever the score of the session: the blend starts
    from 0, and 30 percent of a score of at most 100 is at most 30. *)
Theorem first_session_mastery n :
  (0 <= n <= 100)%Z ->
  (newMasteryScore None (of_Z n) <? 50) = true.
Proof.
  revert n.
  apply (for_all_scores (fun n => newMasteryScore None (of_Z n) <? 50)).
  vm_compute. reflexivity.
Qed.

Lemma first_session_mastery_witness :
  (newMasteryScore None (of_Z 100) <? 50) = true.
Proof.
  apply (first_session_mastery 100). lia.
Defined.

End SessionProperties.

(** ** Properties of the state reducer *)

Module ReducerProperties.

Import Priority AppReducer.
Local Open Scope Z_scope.

Section Reducer.

Context {Flashcard Answer Session : Type}.

Lemma length_set_nth {A : Type} n (v : A) array :
  List.length (set_nth n v array) = Nat.max (List.length array) (S n).
Proof.
  revert array. induction n as [ | n IH]; intros [ | element rest]; simpl;
    rewrite ?IH; simpl; lia.
Qed.

Lemma nth_error_set_nth {A : Type} n (v : A) array :
  nth_error (set_nth n v array) n = Some (Some v).
Proof.
  revert array. induction n as [ | n IH]; intros [ | element rest]; simpl;
    auto.
Qed.

Lemma nth_error_set_nth_other {A : Type} n m (v : A) array :
  m <> n ->
  match nth_error (set_nth n v array) m with
  | Some element => element
  | None => None
  end
  = match nth_error array m with
    | Some element => element
    | None => None
    end.
Proof.
  revert m array.
  induction n as [ | n IH]; intros [ | m] [ | element rest] H; simpl;
    trivial; try contradiction.
  - now destruct m.
  - rewrite (IH m []) by lia. now destruct m.
  - apply IH. lia.
Qed.

(** The card index points into the deck, and the answers do not outnumber
    the cards (a deck without cards counts as one card, the index resting
    at 0). *)
Definition cards_in_range (s : AppState Flashcard Answer Session)
    : Prop :=
  0 <= currentCardIndex s
       <= Z.max 0 (Z.of_nat (List.length (flashcards s)) - 1)
  /\ Z.of_nat (List.length (answers s))
     <= Z.max 1 (Z.of_nat (List.length (flashcards s))).

Lemma reducer_step_in_range
    (s : AppState Flashcard Answer Session)
    (a : AppAction Flashcard Answer Session) :
  cards_in_range s -> cards_in_range (reducer s a).
Proof.
  unfold cards_in_range. intros [Hi Ha].
  destruct a; cbn; try (split; lia).
  - unfold array_set. destruct (Z.ltb_spec (currentCardIndex s) 0).
    + split; lia.
    + rewrite length_set_nth. split; lia.
  - destruct (Z.leb_spec (Z.of_nat (List.length (flashcards s)) - 1)
                (currentCardIndex s)); cbn; split; lia.
Qed.

(** X14. In every state the reducer reaches from the initial one, whatever
    the actions, the card index is within the deck, so it names a card
    whenever there is one, and there are no more answers than cards. *)
Theorem reducer_keeps_cards_in_range
    (INITIAL_PAPERS : list Paper)
    (actions : list (AppAction Flashcard Answer Session)) :
  let s := dispatch_all (initialState INITIAL_PAPERS) actions in
  cards_in_range s
  /\ (flashcards s <> [] ->
      0 <= currentCardIndex s < Z.of_nat (List.length (flashcards s))).
Proof.
  cbv zeta.
  assert (cards_in_range (dispatch_all (initialState INITIAL_PAPERS) actions))
    as H.
  { unfold dispatch_all.
    assert (cards_in_range (initialState (Flashcard := Flashcard)
                              (Answer := Answer) (Session := Session)
                              INITIAL_PAPERS)) as H0
      by (unfold cards_in_range; cbn; lia).
    revert H0. generalize (initialState (Flashcard := Flashcard)
                             (Answer := Answer) (Session := Session)
                             INITIAL_PAPERS).
    induction actions as [ | a rest IH]; intros s H0; simpl; trivial.
    now apply IH, reducer_step_in_range. }
  split; trivial.
  intros Hne. destruct H as [H _].
  destruct (flashcards _) as [ | card rest]; [contradiction | ].
  cbn [List.length] in *. lia.
Qed.

(** X15. Walking a deck: after [SET_FLASHCARDS], [k] times [NEXT_CARD] shows
    card [k] on the review screen as long as there is such a card; the
    [NEXT_CARD] after the last card, and any later one, shows the summary,
    the index resting on the last card. *)
Theorem next_card_walks_the_deck
    (s : AppState Flashcard Answer Session) (cards : list Flashcard)
    (k : nat) :
  let walked :=
    dispatch_all (reducer s (SET_FLASHCARDS cards)) (repeat NEXT_CARD k) in
  let last := Z.max 0 (Z.of_nat (List.length cards) - 1) in
  flashcards walked = cards
  /\ (Z.of_nat k <= last ->
      screen walked = review /\ currentCardIndex walked = Z.of_nat k)
  /\ (last < Z.of_nat k ->
      screen walked = summary /\ currentCardIndex walked = last).
Proof.
  cbv zeta. unfold dispatch_all.
  induction k as [ | k IH].
  - cbn. repeat split; lia.
  - replace (repeat NEXT_CARD (S k))
      with (repeat (A := AppAction Flashcard Answer Session) NEXT_CARD k
            ++ [NEXT_CARD])
      by (rewrite <- repeat_cons; reflexivity).
    rewrite fold_left_app, Nat2Z.inj_succ. cbn [fold_left].
    destruct IH as (Hf & Hlow & Hhigh).
    set (w := fold_left reducer (repeat NEXT_CARD k)
                (reducer s (SET_FLASHCARDS cards))) in *.
    set (last := Z.max 0 (Z.of_nat (List.length cards) - 1)) in *.
    assert (currentCardIndex w = Z.min (Z.of_nat k) last) as Hi
      by (destruct (Z_le_gt_dec (Z.of_nat k) last) as [Hle | Hgt];
          [destruct (Hlow Hle) | destruct (Hhigh ltac:(lia))]; lia).
    remember (reducer w NEXT_CARD) as w' eqn:Hw'.
    unfold reducer in Hw'. rewrite Hf, Hi in Hw'.
    destruct (Z.leb_spec (Z.of_nat (List.length cards) - 1)
                (Z.min (Z.of_nat k) last)) as [Hge | Hlt];
      subst w'; cbn [flashcards screen currentCardIndex set_isEvaluating
                     set_isAnswered set_screen set_currentCardIndex];
      rewrite ?Hi; (split; [exact Hf | ]).
    + split; intros Hk; [lia | ]. split; trivial. lia.
    + split; intros Hk; [ | lia]. split; [ | lia].
      apply Hlow. lia.
Qed.

(** X16. [SAVE_ANSWER] stores the answer at the current card and leaves
    every other answer as it was; going on to the next card and back again
    shows the card as answered. *)
Theorem saved_answer_is_kept
    (s : AppState Flashcard Answer Session) (a : Answer) :
  0 <= currentCardIndex s ->
  let saved := reducer s (SAVE_ANSWER a) in
  array_get (answers saved) (currentCardIndex s) = Some a
  /\ (forall j, j <> currentCardIndex s ->
      array_get (answers saved) j = array_get (answers s) j)
  /\ (currentCardIndex s < Z.of_nat (List.length (flashcards s)) - 1 ->
      let back := reducer (reducer saved NEXT_CARD) PREV_CARD in
      currentCardIndex back = currentCardIndex s
      /\ isAnswered back = true
      /\ answers back = answers saved).
Proof.
  intros Hi. cbv zeta.
  assert (array_get (array_set (answers s) (currentCardIndex s) a)
            (currentCardIndex s) = Some a) as Hget.
  { unfold array_get, array_set.
    replace (currentCardIndex s <? 0) with false
      by (symmetry; apply Z.ltb_ge; lia).
    now rewrite nth_error_set_nth. }
  split; [exact Hget | split].
  - intros j Hj. cbn. unfold array_get, array_set.
    replace (currentCardIndex s <? 0) with false
      by (symmetry; apply Z.ltb_ge; lia).
    destruct (Z.ltb_spec j 0); trivial.
    apply nth_error_set_nth_other. lia.
  - intros Hlt. cbn.
    replace (Z.of_nat (List.length (flashcards s)) - 1 <=? currentCardIndex s)
      with false by (symmetry; apply Z.leb_gt; lia).
    cbn.
    replace (Z.max 0 (currentCardIndex s + 1 - 1)) with (currentCardIndex s)
      by lia.
    now rewrite Hget.
Qed.

End Reducer.

Lemma saved_answer_is_kept_witness :
  let s :=
    dispatch_all (initialState (Session := unit) [])
      [SET_FLASHCARDS ["q1"; "q2"; "q3"]%string; NEXT_CARD] in
  let saved := reducer s (SAVE_ANSWER 100) in
  array_get (answers saved) (currentCardIndex s) = Some 100
  /\ (forall j, j <> currentCardIndex s ->
      array_get (answers saved) j = array_get (answers s) j)
  /\ (currentCardIndex s < Z.of_nat (List.length (flashcards s)) - 1 ->
      let back := reducer (reducer saved NEXT_CARD) PREV_CARD in
      currentCardIndex back = currentCardIndex s
      /\ isAnswered back = true
      /\ answers back = answers saved).
Proof.
  apply (saved_answer_is_kept
           (dispatch_all (initialState (Session := unit) [])
              [SET_FLASHCARDS ["q1"; "q2"; "q3"]%string; NEXT_CARD])
           100).
  cbn. lia.
Defined.

End ReducerProperties.

(** ** Bounds and monotonicity of the priority *)

Module PriorityBounds.

Import JsNumber Priority PriorityProperties LabelProperties.
Local Open Scope Z_scope.

(** X17. The priority is NaN exactly when the last review date does not
    parse. Otherwise it is at most 95, the score of a paper never reviewed
    with both bonuses, and at most 75 once the paper was reviewed: the 50
    points and the time term exclude each other. *)
Theorem priority_upper_bound now today paper stats :
  (calculatePriority now today paper stats = NaN
   <-> opt_field stats lastReviewed = Some Unparsable)
  /\ (forall p, calculatePriority now today paper stats = Points p ->
      p <= 95 /\ (opt_field stats lastReviewed <> None -> p <= 75)).
Proof.
  destruct (opt_field stats lastReviewed) as [[t | ] | ] eqn:H.
  - rewrite (calculatePriority_reviewed _ _ _ _ _ H).
    split; [split; discriminate | ].
    intros p [= <-].
    destruct (lowMastery stats), (isDue today stats); lia.
  - rewrite (calculatePriority_unparsable _ _ _ _ H).
    split; [split; trivial | discriminate].
  - rewrite (calculatePriority_never_reviewed _ _ _ _ H).
    split; [split; discriminate | ].
    intros p [= <-].
    destruct (lowMastery stats), (isDue today stats);
      (split; [lia | intros Hn; now contradiction Hn]).
Qed.

(** X18. Waiting never lowers a priority: for one record, a later clock
    gives a priority at least as high (and NaN stays NaN). *)
Theorem priority_grows_with_time now now' today today' paper stats :
  now <= now' ->
  today <= today' ->
  match calculatePriority now today paper stats,
        calculatePriority now' today' paper stats with
  | Points p, Points p' => p <= p'
  | NaN, NaN => True
  | _, _ => False
  end.
Proof.
  intros Hn Ht.
  assert (isDue today stats = true -> isDue today' stats = true) as Hdue.
  { unfold isDue, date_le.
    destruct (opt_field stats dueDate) as [[t | ] | ]; trivial.
    cbn. rewrite !Z.leb_le. lia. }
  destruct (opt_field stats lastReviewed) as [[t | ] | ] eqn:H.
  - rewrite !(calculatePriority_reviewed _ _ _ _ _ H).
    assert ((now - t) / day <= (now' - t) / day)
      by (apply Z.div_le_mono; unfold day; lia).
    destruct (lowMastery stats), (isDue today stats) eqn:Hd;
      try rewrite (Hdue eq_refl);
      destruct (isDue today' stats); lia.
  - now rewrite !(calculatePriority_unparsable _ _ _ _ H).
  - rewrite !(calculatePriority_never_reviewed _ _ _ _ H).
    destruct (lowMastery stats), (isDue today stats) eqn:Hd;
      try rewrite (Hdue eq_refl);
      destruct (isDue today' stats); lia.
Qed.

Lemma priority_grows_with_time_witness :
  let stats :=
    Some {| lastReviewed := Some (IsoDate (1767225600000 - 3 * day));
            masteryScore := Some 80%float;
            reviewCount := 1%float; easeFactor := 2.5%float;
            interval := 8%float;
            dueDate := Some (IsoDate (1767225600000 + 5 * day)) |} in
  match calculatePriority 1767225600000 1767225600000
          {| id := "p1"; title := "Attention" |} stats,
        calculatePriority (1767225600000 + 6 * day) (1767225600000 + 6 * day)
          {| id := "p1"; title := "Attention" |} stats with
  | Points p, Points p' => p <= p'
  | NaN, NaN => True
  | _, _ => False
  end.
Proof.
  apply (priority_grows_with_time 1767225600000 (1767225600000 + 6 * day)
           1767225600000 (1767225600000 + 6 * day));
    unfold day; lia.
Defined.

End PriorityBounds.
